(** * Air-quality forecasting notebook (3-timeseries/fbprophet.ipynb)

    A shallow embedding of the notebook's data preparation, of the calls it
    makes into the forecasting library and the vendor SDK, and of the
    request/response interface of the deployed endpoint, together with the
    properties the specification states about them.

    Conventions.
    - A pandas [Timestamp] built by [datetime(year, month, day, hour)] is a
      validated record; a daily timestamp (midnight) is represented by the
      proleptic Gregorian ordinal of its date, as computed by Python's
      [date.toordinal].
    - Missing values (NaN / NaT) are [None].
    - Readings are rationals: no statement below depends on the numeric value
      of a mean, only on whether it is missing.
    - The functions that compute the two frames of cell 10 are total.  Where
      pandas refuses to resample (a dataset without rows, timestamps outside
      its 64-bit nanosecond range) the cell itself raises: see [resample]
      and [cell_10].
    - The world outside the notebook (network, file formats, plotting, the
      vendor's platform) is a parameter; what a call into it does may depend
      on when in the run it is made. *)

From stdpp Require Import base tactics option list list_numbers sorting gmap strings pretty.
From Stdlib Require Import Ascii ZArith QArith Lia.

#[local] Open Scope string_scope.
#[local] Open Scope Z_scope.

(** ** Exceptions and fallible results *)

Inductive exn : Type :=
  | PyExc (cls : string) (msg : string).

Definition ValueError (msg : string) : exn := PyExc "ValueError" msg.
Definition TypeError (msg : string) : exn := PyExc "TypeError" msg.
Definition OverflowError (msg : string) : exn := PyExc "OverflowError" msg.
Definition KeyError (key : string) : exn := PyExc "KeyError" ("'" +:+ key +:+ "'").

Inductive result (A : Type) : Type :=
  | Ok (a : A)
  | Raise (e : exn).
Arguments Ok {A} a.
Arguments Raise {A} e.

#[global] Instance result_ret : MRet result := fun A a => Ok a.
#[global] Instance result_bind : MBind result := fun A B f m =>
  match m with
  | Ok a => f a
  | Raise e => Raise e
  end.
(** [mapM] in the order of the list: the first element that raises decides. *)
Fixpoint result_mapM {A B} (f : A → result B) (l : list A) : result (list B) :=
  match l with
  | [] => Ok []
  | x :: r => b ← f x; bs ← result_mapM f r; Ok (b :: bs)
  end.

(** ** Python's calendar arithmetic ([datetime] module) *)

Module Calendar.

Definition MINYEAR : Z := 1.
Definition MAXYEAR : Z := 9999.

(** Index 0 is a placeholder, as in the library's tables. *)
Definition _DAYS_IN_MONTH : list Z :=
  [-1; 31; 28; 31; 30; 31; 30; 31; 31; 30; 31; 30; 31].
Definition _DAYS_BEFORE_MONTH : list Z :=
  [-1; 0; 31; 59; 90; 120; 151; 181; 212; 243; 273; 304; 334].

Definition _is_leap (year : Z) : bool :=
  (year mod 4 =? 0) && (negb (year mod 100 =? 0) || (year mod 400 =? 0)).

Definition _days_before_year (year : Z) : Z :=
  let y := year - 1 in
  y * 365 + y / 4 - y / 100 + y / 400.

Definition _days_in_month (year month : Z) : Z :=
  if (month =? 2) && _is_leap year then 29
  else _DAYS_IN_MONTH !!! Z.to_nat month.

Definition _days_before_month (year month : Z) : Z :=
  _DAYS_BEFORE_MONTH !!! Z.to_nat month
  + (if (2 <? month) && _is_leap year then 1 else 0).

Definition _ymd2ord (year month day : Z) : Z :=
  _days_before_year year + _days_before_month year month + day.

(** [_check_date_fields]: the first violated bound raises [ValueError], with
    the messages of the interpreter's own (C) implementation. *)
Definition _check_date_fields (year month day : Z) : result unit :=
  if negb ((MINYEAR <=? year) && (year <=? MAXYEAR))
  then Raise (ValueError ("year " +:+ pretty year +:+ " is out of range"))
  else if negb ((1 <=? month) && (month <=? 12))
  then Raise (ValueError "month must be in 1..12")
  else if negb ((1 <=? day) && (day <=? _days_in_month year month))
  then Raise (ValueError "day is out of range for month")
  else Ok ().

Definition _check_hour (hour : Z) : result unit :=
  if negb ((0 <=? hour) && (hour <=? 23))
  then Raise (ValueError "hour must be in 0..23")
  else Ok ().

Record datetime : Type := mk_datetime
  { dt_year : Z; dt_month : Z; dt_day : Z; dt_hour : Z }.

(** An integer argument is first converted to a C [int] (on 64-bit Linux:
    through a C [long]); a value that does not fit raises [OverflowError]. *)
Definition _as_c_int (v : Z) : result Z :=
  if negb ((- 2 ^ 63 <=? v) && (v <? 2 ^ 63))
  then Raise (OverflowError "Python int too large to convert to C long")
  else if 2 ^ 31 <=? v
  then Raise (OverflowError "signed integer is greater than maximum")
  else if v <? - 2 ^ 31
  then Raise (OverflowError "signed integer is less than minimum")
  else Ok v.

(** The constructor [datetime(year, month, day, hour)]: the four arguments
    are converted in order, then the date fields are checked, then the
    hour. *)
Definition new_datetime (year month day hour : Z) : result datetime :=
  year ← _as_c_int year;
  month ← _as_c_int month;
  day ← _as_c_int day;
  hour ← _as_c_int hour;
  _ ← _check_date_fields year month day;
  _ ← _check_hour hour;
  Ok (mk_datetime year month day hour).

Definition toordinal (t : datetime) : Z :=
  _ymd2ord (dt_year t) (dt_month t) (dt_day t).

End Calendar.
Export Calendar.

(** A date is the ordinal of its day. *)
Abbreviation Date := Z (only parsing).

(** ** The hourly dataset (cell 7) *)

(** One line of the station's CSV, restricted to the columns the notebook
    reads: [year], [month], [day], [hour] and ["PM2.5"]. *)
Record Row : Type := mk_Row
  { year : Z; month : Z; day : Z; hour : Z; PM2_5 : option Q }.

(** [df] after [df.index = df.apply(lambda x: datetime(...), axis=1)]: every
    row is paired with its index entry. *)
Definition DataFrame : Type := list (datetime * Row).

Definition index_of_row (x : Row) : result datetime :=
  new_datetime (year x) (month x) (day x) (hour x).

Definition set_datetime_index (rows : list Row) : result DataFrame :=
  result_mapM (fun x => t ← index_of_row x; Ok (t, x)) rows.

(** ** Daily resampling and the train/test split (cell 10) *)

(** A series with a datetime index: the ["PM2.5"] column of a selection. *)
Definition Series : Type := list (datetime * option Q).

(** [df.loc[mask, "PM2.5"]] *)
Definition loc_PM2_5 (mask : Row → bool) (df : DataFrame) : Series :=
  (fun '(t, x) => (t, PM2_5 x)) <$> filter (fun '(_, x) => mask x = true) df.

Definition min_list_Z (d : Z) (l : list Z) : Z := foldr Z.min d l.
Definition max_list_Z (d : Z) (l : list Z) : Z := foldr Z.max d l.

(** First and last day of a series; [None] for the empty series. *)
Definition day_bounds (s : Series) : option (Z * Z) :=
  match (toordinal ∘ fst) <$> s with
  | [] => None
  | d :: ds => Some (min_list_Z d ds, max_list_Z d ds)
  end.

(** The non-missing values of the records of day [d]. *)
Definition day_values (s : Series) (d : Date) : list Q :=
  omap snd (filter (fun p => toordinal (fst p) = d) s).

Definition Qsum (l : list Q) : Q := foldr Qplus (0 # 1)%Q l.

(** [mean()] of one bin: missing values are skipped, an empty bin is NaN. *)
Definition mean (vs : list Q) : option Q :=
  match vs with
  | [] => None
  | _ => Some (Qsum vs / inject_Z (Z.of_nat (length vs)))%Q
  end.

(** [.resample("1D").mean()]: one bin per calendar day from the first to the
    last day of the series, empty days included. *)
Definition resample_1D_mean (s : Series) : list (Date * option Q) :=
  match day_bounds s with
  | None => []
  | Some (lo, hi) => (fun d => (d, mean (day_values s d))) <$> seqZ lo (hi - lo + 1)
  end.

(** The two-column frame handed to the model. *)
Record Frame : Type := mk_Frame
  { ds : list (option Date); y : list (option Q) }.

(** [.reset_index().rename(columns={"index": "ds", "PM2.5": "y"})] *)
Definition reset_index_rename (s : list (Date * option Q)) : Frame :=
  {| ds := (Some ∘ fst) <$> s; y := snd <$> s |}.

(** Forward fill of one column: a missing cell takes the last value seen
    above it, if any. *)
Fixpoint ffill_from {A} (last : option A) (col : list (option A)) : list (option A) :=
  match col with
  | [] => []
  | c :: rest =>
      let v := match c with Some _ => c | None => last end in
      v :: ffill_from v rest
  end.

Definition ffill {A} (col : list (option A)) : list (option A) := ffill_from None col.

(** [frame.fillna(method="ffill", inplace=True)] fills every column. *)
Definition fillna_ffill (f : Frame) : Frame :=
  {| ds := ffill (ds f); y := ffill (y f) |}.

Definition is_train (x : Row) : bool := year x <? 2016.
Definition is_test (x : Row) : bool := 2016 <=? year x.

Definition train_resampled (df : DataFrame) : Frame :=
  reset_index_rename (resample_1D_mean (loc_PM2_5 is_train df)).
Definition test_resampled (df : DataFrame) : Frame :=
  reset_index_rename (resample_1D_mean (loc_PM2_5 is_test df)).

Definition train (df : DataFrame) : Frame := fillna_ffill (train_resampled df).
Definition test (df : DataFrame) : Frame := fillna_ffill (test_resampled df).

(** The dataframe library keeps a timestamp as the nanoseconds since
    1 January 1970 in a signed 64-bit integer, whose least value stands for
    "not a time". *)
Definition to_ns (t : datetime) : Z :=
  ((toordinal t - _ymd2ord 1970 1 1) * 24 + dt_hour t) * 3600 * 10 ^ 9.

Definition in_Timestamp_bounds (t : datetime) : bool :=
  (- 2 ^ 63 <? to_ns t) && (to_ns t <? 2 ^ 63).

(** The index that [df.index = df.apply(...)] leaves: a [DatetimeIndex] when
    the frame has rows and every timestamp fits; an [Index] of Python
    objects when the frame is empty or some timestamp does not fit. *)
Definition is_DatetimeIndex (df : DataFrame) : bool :=
  match df with
  | [] => false
  | _ => forallb (fun p => in_Timestamp_bounds p.1) df
  end.

(** [s.resample("1D")] for a series [s] selected from [df], whose kind of
    index it inherits. *)
Definition resample (df : DataFrame) (s : Series) : result Series :=
  if is_DatetimeIndex df then Ok s
  else Raise (TypeError
    "Only valid with DatetimeIndex, TimedeltaIndex or PeriodIndex, but got an instance of 'Index'").

(** The daily resampling of the whole dataset: its full date range. *)
Definition full_range (df : DataFrame) : list Date :=
  fst <$> resample_1D_mean (loc_PM2_5 (fun _ => true) df).

(** The dates of a frame. *)
Definition dates (f : Frame) : list Date := omap id (ds f).

(** ** The forecasting library (fbprophet), as far as the notebook uses it *)

Module Prophet.

(** One forecast: the point estimate and its uncertainty interval. *)
Record Point : Type := mk_Point
  { yhat_lower : Q; yhat_upper : Q; yhat : Q }.

(** What lies outside the model: the floating-point side of the library.
    [y_min_eq_max] is the test [history['y'].min() == history['y'].max()],
    a comparison of floating-point averages, which the exact averages of
    the model do not decide.  [optimizing] is the optimiser (with the
    library's fall-back to Newton's method): it maps a history to a
    predictive function, or raises.  [stan_init] is the predictive function
    of the initial parameters, which the library computes itself from the
    history. *)
Record Backend : Type := mk_Backend
  { y_min_eq_max : list (Date * Q) → bool;
    optimizing : list (Date * Q) → result (Date → Point);
    stan_init : list (Date * Q) → Date → Point }.

Record t : Type := mk
  { history : option (list (Date * Q));
    history_dates : option (list Date);
    params : option (Date → Point) }.

(** [Prophet()] *)
Definition new : t :=
  {| history := None; history_dates := None; params := None |}.

Definition rows (df : Frame) : list (option Date * option Q) := zip (ds df) (y df).

(** [setup_dataframe]: a missing date is rejected, rows are sorted by date. *)
Definition setup_dates (col : list (option Date)) : result (list Date) :=
  match mapM id col with
  | None => Raise (ValueError "Found NaN in column ds.")
  | Some l => Ok (merge_sort Z.le l)
  end.

Definition by_date (a b : Date * Q) : Prop := a.1 ≤ b.1.
#[global] Instance by_date_dec : RelDecision by_date :=
  fun a b => Z.le_dec a.1 b.1.

Definition setup_history (h : list (option Date * Q)) : result (list (Date * Q)) :=
  match mapM (fun '(d, v) => (fun d' => (d', v)) <$> d) h with
  | None => Raise (ValueError "Found NaN in column ds.")
  | Some l => Ok (merge_sort by_date l)
  end.

(** [m.fit(df)] with the default linear growth and no MCMC samples: a
    history whose least and greatest value are equal leaves nothing to fit,
    and the optimiser is not called. *)
Definition fit (stan : Backend) (m : t) (df : Frame) : result t :=
  match history m with
  | Some _ =>
      Raise (PyExc "Exception"
               "Prophet object can only be fit once. Instantiate a new object.")
  | None =>
      let notnull := omap (fun '(d, v) => (fun v' => (d, v')) <$> v) (rows df) in
      if (length notnull <? 2)%nat
      then Raise (ValueError "Dataframe has less than 2 non-NaN rows.")
      else
        let hd := merge_sort Z.le (remove_dups (omap id (ds df))) in
        h ← setup_history notnull;
        p ← (if y_min_eq_max stan h then Ok (stan_init stan h) else optimizing stan h);
        Ok {| history := Some h; history_dates := Some hd; params := Some p |}
  end.

(** [m.make_future_dataframe(periods, include_history=False)] with the
    default daily frequency. *)
Definition make_future_dataframe (m : t) (periods : nat) : result (list Date) :=
  match history_dates m with
  | None => Raise (PyExc "Exception" "Model has not been fit.")
  | Some [] => Raise (ValueError "Neither `start` nor `end` can be NaT")
  | Some (d :: rest) =>
      let last_date := max_list_Z d rest in
      let dates := seqZ last_date (Z.of_nat periods + 1) in
      let dates := filter (fun d => last_date < d) dates in
      Ok (take periods dates)
  end.

(** [m.predict(df)] restricted to the columns the notebook reads. *)
Definition predict (m : t) (df : list Date) : result (list (Date * Point)) :=
  match params m with
  | None => Raise (PyExc "Exception" "Model has not been fit.")
  | Some p =>
      if (length df =? 0)%nat
      then Raise (ValueError "Dataframe has no rows.")
      else
        dates ← setup_dates (Some <$> df);
        Ok ((fun d => (d, p d)) <$> (dates : list Date))
  end.

End Prophet.

(** Cell 11: [m = Prophet(); m.fit(train)]. *)
Definition fit_local (stan : Prophet.Backend) (df : DataFrame) : result Prophet.t :=
  Prophet.fit stan Prophet.new (train df).

(** [frame.shape[0]] *)
Definition shape0 (f : Frame) : nat := length (ds f).

(** Cell 12: the local forecast over as many periods as the test frame has
    rows. *)
Definition forecast_local (m : Prophet.t) (df : DataFrame)
  : result (list (Date * Prophet.Point)) :=
  future ← Prophet.make_future_dataframe m (shape0 (test df));
  Prophet.predict m future.

(** ** Object-storage keys (cells 4 and 15) *)

Definition key_prefix : string := "air-quality-prophet/{}".

(** [str.format] with one positional argument and one replacement field. *)
Fixpoint format (template arg : string) : string :=
  match template with
  | String "{"%char (String "}"%char rest) => arg +:+ rest
  | String c rest => String c (format rest arg)
  | EmptyString => EmptyString
  end.

(** [key_prefix.format(f"{name}.csv")] *)
Definition upload_key (name : string) : string :=
  format key_prefix (name +:+ ".csv").

(** ** Training-job configuration (cells 17, 29, 30) *)

Inductive hp_value : Type :=
  | HFloat (q : Q)
  | HInt (z : Z).

Inductive hp_range : Type :=
  | ContinuousParameter (min_value max_value : Q)
  | CategoricalParameter (values : list string).

Record SKLearn : Type := mk_SKLearn
  { source_dir : string;
    entry_point : string;
    framework_version : string;
    hyperparameters : gmap string hp_value;
    train_instance_type : string }.

Definition prophet_estimator : SKLearn :=
  {| source_dir := "src";
     entry_point := "train.py";
     framework_version := "0.23-1";
     hyperparameters :=
       {[ "changepoint_prior_scale" := HFloat (5 # 1000);
          "prediction_periods" := HInt 425 ]};
     train_instance_type := "local" |}.

Definition prophet_estimator_hpo : SKLearn :=
  {| source_dir := "src";
     entry_point := "train-hpo.py";
     framework_version := "0.23-1";
     hyperparameters := ∅;
     train_instance_type := "ml.m5.large" |}.

Definition hyperparameter_ranges : gmap string hp_range :=
  {[ "changepoint_prior_scale" := ContinuousParameter (1 # 1000) (5 # 10);
     "seasonality_prior_scale" := ContinuousParameter (1 # 100) (5 # 1);
     "seasonality_mode" := CategoricalParameter ["additive"; "multiplicative"] ]}.

Record HyperparameterTuner : Type := mk_HyperparameterTuner
  { estimator : SKLearn;
    objective_metric_name : string;
    metric_definitions : list (string * string);
    tuner_hyperparameter_ranges : gmap string hp_range;
    max_jobs : nat;
    max_parallel_jobs : nat;
    objective_type : string }.

Definition tuner : HyperparameterTuner :=
  {| estimator := prophet_estimator_hpo;
     objective_metric_name := "rmse";
     metric_definitions := [("rmse", "train rmse: (\S+)")];
     tuner_hyperparameter_ranges := hyperparameter_ranges;
     max_jobs := 20;
     max_parallel_jobs := 5;
     objective_type := "Minimize" |}.

(** Every hyperparameter name the notebook hands to the vendor: the fixed
    hyperparameters of both estimators and the tuner's search ranges. *)
Definition supplied_hyperparameter_names : gset string :=
  dom (hyperparameters prophet_estimator)
  ∪ dom (hyperparameters (estimator tuner))
  ∪ dom (tuner_hyperparameter_ranges tuner).

(** ** The JSON interface of the endpoint *)

(** The values that occur in requests and responses.  A date inside a
    response is kept as a date: its wire encoding is the serving script's
    choice. *)
Inductive jvalue : Type :=
  | JStr (s : string)
  | JNum (q : Q)
  | JDate (d : Date).

Abbreviation jobject := (gmap string jvalue) (only parsing).

(** Cells 22 and 34: the request literal. *)
Definition prediction_request : gmap string jvalue :=
  {[ "start" := JStr "1-1-2016"; "end" := JStr "2-28-2017" ]}.

Fixpoint split_on (sep : ascii) (s : string) : list string :=
  match s with
  | EmptyString => [EmptyString]
  | String c rest =>
      if Ascii.eqb c sep then EmptyString :: split_on sep rest
      else match split_on sep rest with
           | [] => [String c EmptyString]
           | w :: ws => String c w :: ws
           end
  end.

Definition digit_of (c : ascii) : option Z :=
  let n := Z.of_N (N_of_ascii c) in
  if (48 <=? n) && (n <=? 57) then Some (n - 48) else None.

Fixpoint parse_digits (acc : Z) (s : string) : option Z :=
  match s with
  | EmptyString => Some acc
  | String c rest => d ← digit_of c; parse_digits (10 * acc + d) rest
  end.

Definition parse_number (s : string) : option Z :=
  match s with
  | EmptyString => None
  | _ => parse_digits 0 s
  end.

(** Modelled from the spec: the serving script (src/serve.py of the
    repository) is not among the sources.  The spec describes it as a thin
    adapter that takes [{"start": <date>, "end": <date>}], expands the date
    range, calls the library's predict and returns a list of
    [{"ds", "yhat_lower", "yhat_upper", "yhat"}] objects, one for each date
    that falls within the start-end period.  Dates arrive written
    month-day-year, as in the notebook's request. *)
Module Serve.

Definition to_datetime (s : string) : result Date :=
  match split_on "-"%char s with
  | [m; d; yr] =>
      match parse_number m, parse_number d, parse_number yr with
      | Some m, Some d, Some yr =>
          _ ← _check_date_fields yr m d; Ok (_ymd2ord yr m d)
      | _, _, _ => Raise (ValueError "Unknown string format")
      end
  | _ => Raise (ValueError "Unknown string format")
  end.

Definition date_field (request : gmap string jvalue) (key : string) : result Date :=
  match request !! key with
  | None => Raise (PyExc "KeyError" key)
  | Some (JStr s) => to_datetime s
  | Some (JDate d) => Ok d
  | Some (JNum _) => Raise (PyExc "TypeError" key)
  end.

(** The dates a request denotes. *)
Definition input_fn (request : gmap string jvalue) : result (Date * Date) :=
  s ← date_field request "start";
  e ← date_field request "end";
  Ok (s, e).

(** [pd.date_range(start, end)]: every day from [start] through [end]. *)
Definition date_range (s e : Date) : list Date := seqZ s (e - s + 1).

Definition predict_fn (m : Prophet.t) (range : Date * Date)
  : result (list (Date * Prophet.Point)) :=
  Prophet.predict m (date_range range.1 range.2).

Definition record (row : Date * Prophet.Point) : gmap string jvalue :=
  {[ "ds" := JDate row.1;
     "yhat_lower" := JNum (Prophet.yhat_lower row.2);
     "yhat_upper" := JNum (Prophet.yhat_upper row.2);
     "yhat" := JNum (Prophet.yhat row.2) ]}.

Definition output_fn (forecast : list (Date * Prophet.Point))
  : list (gmap string jvalue) :=
  record <$> forecast.

(** One invocation of the endpoint that hosts model [m]. *)
Definition invoke (m : Prophet.t) (request : gmap string jvalue)
  : result (list (gmap string jvalue)) :=
  range ← input_fn request;
  forecast ← predict_fn m range;
  Ok (output_fn forecast).

End Serve.

(** ** The notebook as a sequence of library calls *)

(** Every call into a library is recorded with its outcome; a call to the
    endpoint is recorded with the request it sends. *)
Record entry : Type := mk_entry
  { call_name : string;
    call_request : option (gmap string jvalue);
    raised : option exn }.

Definition outcome {A} (r : result A) : option exn :=
  match r with
  | Ok _ => None
  | Raise e => Some e
  end.

(** Computations that log their calls and may raise. *)
Definition M (A : Type) : Type := list entry → list entry * result A.

#[global] Instance M_ret : MRet M := fun A a log => (log, Ok a).
#[global] Instance M_bind : MBind M := fun A B f m log =>
  match m log with
  | (log', Ok a) => f a log'
  | (log', Raise e) => (log', Raise e)
  end.

(** A call whose result [r] the definitions above compute from its
    arguments. *)
Definition call_with {A} (name : string) (request : option (gmap string jvalue))
    (r : result A) : M A :=
  fun log => ((log ++ [mk_entry name request (outcome r)])%list, r).

Definition call {A} (name : string) (r : result A) : M A := call_with name None r.

(** A call into the world outside the notebook.  What it does may change
    from one call to the next, also for equal arguments: the world is asked
    with the number of calls made so far. *)
Definition external_with {A} (name : string) (request : option (gmap string jvalue))
    (r : nat → result A) : M A :=
  fun log => call_with name request (r (length log)) log.

Definition external {A} (name : string) (r : nat → result A) : M A :=
  external_with name None r.

(** [try: m except Exception: handler] -- available to Python code, and used
    nowhere in the notebook. *)
Definition try_except {A} (m : M A) (handler : exn → M A) : M A :=
  fun log =>
    match m log with
    | (log', Ok a) => (log', Ok a)
    | (log', Raise e) => handler e log'
    end.

(** A [for] loop over a list. *)
Fixpoint for_each {A} (body : A → M unit) (l : list A) : M unit :=
  match l with
  | [] => mret ()
  | x :: rest => _ ← body x; for_each body rest
  end.

(** Python-side objects of the libraries that the model does not look into. *)
Definition handle : Type := N.

(** The answers of the platform's describe calls, as far as the notebook
    looks into them: strings and dictionaries with string keys. *)
#[warnings="-register-all"]
Inductive pyobj : Type :=
  | PyStr (s : string)
  | PyDict (items : gmap string pyobj)
  | PyNone.

(** [o[key]] *)
Definition getitem (o : pyobj) (key : string) : result pyobj :=
  match o with
  | PyDict items =>
      match items !! key with
      | Some v => Ok v
      | None => Raise (KeyError key)
      end
  | PyStr _ => Raise (TypeError "string indices must be integers")
  | PyNone => Raise (TypeError "'NoneType' object is not subscriptable")
  end.

(** The libraries and the platform the notebook calls.  Each call returns or
    raises; the last argument is the number of calls the run has made
    before it.  [read_csv] stands for a file that has the five columns of
    [Row]. *)
Record World : Type := mk_World
  { import_ : string → nat → result unit;
    get_execution_role : nat → result string;
    Session : nat → result handle;
    default_bucket : handle → nat → result string;
    requests_get : string → nat → result handle;
    Response_content : handle → nat → result string;
    BytesIO : string → nat → result handle;
    ZipFile : handle → nat → result handle;
    ZipFile_read : handle → string → nat → result string;
    decode : string → string → nat → result string;
    StringIO : string → nat → result handle;
    read_csv : handle → nat → result (list Row);
    stan : Prophet.Backend;
    plot_frame : Frame → nat → result handle;
    plot_forecast : list (Date * Q) → handle → nat → result handle;
    to_csv : Frame → nat → result string;
    upload_string_as_file_body : handle → string → string → string → nat → result string;
    SKLearn_new : SKLearn → string → nat → result handle;
    estimator_fit : handle → gmap string string → nat → result unit;
    model_data : handle → nat → result pyobj;
    SKLearnModel_new : string → string → string → pyobj → string → nat → result handle;
    deploy : handle → string → nat → nat → result handle;
    setattr : handle → string → nat → result unit;
    predictor_predict :
      handle → gmap string jvalue → nat → result (list (gmap string jvalue));
    pd_DataFrame : list (gmap string jvalue) → nat → result handle;
    DataFrame_getitem : handle → list string → nat → result handle;
    pd_to_datetime : handle → nat → result handle;
    DataFrame_setitem : handle → string → handle → nat → result unit;
    DataFrame_set_index : handle → string → nat → result handle;
    plot_predictions : handle → handle → nat → result handle;
    delete_endpoint : handle → nat → result unit;
    parameter_range : hp_range → nat → result unit;
    HyperparameterTuner_new : HyperparameterTuner → nat → result handle;
    tuner_fit : handle → gmap string string → nat → result unit;
    latest_tuning_job_name : handle → nat → result string;
    describe_tuning_job : handle → string → nat → result pyobj;
    describe_training_job : handle → pyobj → nat → result pyobj }.

Definition data_url : string :=
  "https://archive.ics.uci.edu/ml/machine-learning-databases/00501/PRSA2017_Data_20130301-20170228.zip".

Definition data_member : string :=
  "PRSA_Data_20130301-20170228/PRSA_Data_Changping_20130301-20170228.csv".

(** Cell 3: one import statement after the other.  The shell lines of the
    notebook ([!pip install], [!pygmentize]) run outside the interpreter and
    raise nothing; they are left out, and so are the operations of the
    language itself on strings and lists ([str.format], f-strings, [zip]),
    which return on the values the notebook gives them. *)
Definition cell_3 (w : World) : M unit :=
  _ ← external "import" (import_ w "requests");
  _ ← external "import" (import_ w "zipfile");
  _ ← external "import" (import_ w "io");
  _ ← external "import" (import_ w "pandas");
  _ ← external "import" (import_ w "itertools");
  _ ← external "import" (import_ w "datetime");
  _ ← external "import" (import_ w "sagemaker");
  external "import" (import_ w "fbprophet").

(** Cell 4: role, session and bucket. *)
Definition cell_4 (w : World) : M (string * handle * string) :=
  role ← external "sagemaker.get_execution_role" (get_execution_role w);
  sess ← external "sagemaker.session.Session" (Session w);
  bucket ← external "Session.default_bucket" (default_bucket w sess);
  mret (role, sess, bucket).

(** Cell 7: download, unzip, parse, index by timestamp. *)
Definition cell_7 (w : World) : M DataFrame :=
  response ← external "requests.get" (requests_get w data_url);
  content ← external "Response.content" (Response_content w response);
  buffer ← external "BytesIO" (BytesIO w content);
  zip_file ← external "ZipFile" (ZipFile w buffer);
  raw ← external "ZipFile.read" (ZipFile_read w zip_file data_member);
  text ← external "bytes.decode" (decode w raw "utf8");
  data ← external "StringIO" (StringIO w text);
  rows ← external "pandas.read_csv" (read_csv w data);
  call "DataFrame.apply" (set_datetime_index rows).

(** One line of cell 10:
    [df.loc[mask, "PM2.5"].resample("1D").mean().reset_index().rename(...)]. *)
Definition resampled (mask : Row → bool) (df : DataFrame) : M Frame :=
  s ← call "DataFrame.loc" (Ok (loc_PM2_5 mask df));
  r ← call "Series.resample" (resample df s);
  daily ← call "Resampler.mean" (Ok (resample_1D_mean r));
  daily ← call "Series.reset_index" (Ok daily);
  call "DataFrame.rename" (Ok (reset_index_rename daily)).

(** Cell 10: the two frames, resampled and then filled. *)
Definition cell_10 (df : DataFrame) : M (Frame * Frame) :=
  train ← resampled is_train df;
  test ← resampled is_test df;
  train ← call "DataFrame.fillna" (Ok (fillna_ffill train));
  test ← call "DataFrame.fillna" (Ok (fillna_ffill test));
  mret (train, test).

(** Cell 11: local training. *)
Definition cell_11 (w : World) (train : Frame) : M Prophet.t :=
  m ← call "Prophet" (Ok Prophet.new);
  call "Prophet.fit" (Prophet.fit (stan w) m train).

(** [test.set_index("ds").plot(figsize=(14,6))] *)
Definition plot_test (w : World) (test : Frame) : M handle :=
  indexed ← call "DataFrame.set_index" (Ok test);
  external "DataFrame.plot" (plot_frame w indexed).

(** Cell 12: local forecast and plots. *)
Definition cell_12 (w : World) (m : Prophet.t) (test : Frame) : M unit :=
  future ← call "Prophet.make_future_dataframe"
             (Prophet.make_future_dataframe m (shape0 test));
  forecast ← call "Prophet.predict" (Prophet.predict m future);
  ax ← plot_test w test;
  selected ← call "DataFrame.__getitem__"
               (Ok ((fun r => (r.1, Prophet.yhat r.2)) <$> forecast));
  indexed ← call "DataFrame.set_index" (Ok selected);
  _ ← external "DataFrame.plot" (plot_forecast w indexed ax);
  mret ().

(** Cell 15: upload both frames as CSV. *)
Definition cell_15 (w : World) (sess : handle) (bucket : string) (train test : Frame)
  : M unit :=
  for_each
    (fun '(name, data_set) =>
       body ← external "DataFrame.to_csv" (to_csv w data_set);
       _ ← external "Session.upload_string_as_file_body"
             (upload_string_as_file_body w sess body bucket (upload_key name));
       mret ())
    (zip ["train"; "test"] [train; test]).

(** Cell 17: the managed training job. *)
Definition cell_17 (w : World) (role bucket : string) : M (handle * string) :=
  _ ← external "import" (import_ w "sagemaker.sklearn.estimator");
  est ← external "SKLearn" (SKLearn_new w prophet_estimator role);
  let train_data_path := "s3://" +:+ bucket +:+ "/" +:+ format key_prefix "train.csv" in
  _ ← external "SKLearn.fit" (estimator_fit w est {[ "train" := train_data_path ]});
  mret (est, train_data_path).

(** Cells 21 and 33: host a model artifact behind an endpoint, and set the
    two converters of the predictor. *)
Definition deploy_model (w : World) (role : string) (artifact : pyobj) : M handle :=
  prophet_model ← external "SKLearnModel"
                    (SKLearnModel_new w "src" "serve.py" "0.23-1" artifact role);
  predictor ← external "SKLearnModel.deploy" (deploy w prophet_model "local" 1%nat);
  _ ← external "setattr" (setattr w predictor "serializer");
  _ ← external "setattr" (setattr w predictor "deserializer");
  mret predictor.

Definition cell_21 (w : World) (role : string) (est : handle) : M handle :=
  _ ← external "import" (import_ w "sagemaker.sklearn.model");
  _ ← external "import" (import_ w "sagemaker.predictor");
  artifact ← external "SKLearn.model_data" (model_data w est);
  deploy_model w role artifact.

(** Cells 22 and 34 (first line): one prediction request. *)
Definition request_predictions (w : World) (predictor : handle)
  : M (list (gmap string jvalue)) :=
  external_with "Predictor.predict" (Some prediction_request)
    (predictor_predict w predictor prediction_request).

(** Cells 23 and 34 (rest): predictions to a frame, and plots. *)
Definition plot_predictions_cell (w : World) (test : Frame)
    (predictions : list (gmap string jvalue)) : M unit :=
  predictions_df ← external "pandas.DataFrame" (pd_DataFrame w predictions);
  column ← external "DataFrame.__getitem__" (DataFrame_getitem w predictions_df ["ds"]);
  column ← external "pandas.to_datetime" (pd_to_datetime w column);
  _ ← external "DataFrame.__setitem__" (DataFrame_setitem w predictions_df "ds" column);
  ax ← plot_test w test;
  selected ← external "DataFrame.__getitem__"
               (DataFrame_getitem w predictions_df ["ds"; "yhat"]);
  indexed ← external "DataFrame.set_index" (DataFrame_set_index w selected "ds");
  _ ← external "DataFrame.plot" (plot_predictions w indexed ax);
  mret ().

(** Cells 24 and 35. *)
Definition delete_endpoint_cell (w : World) (predictor : handle) : M unit :=
  external "Predictor.delete_endpoint" (delete_endpoint w predictor).

(** Cells 28 to 32: hyperparameter search; the result is the tuner. *)
Definition tuning_cells (w : World) (role : string) (sess : handle)
    (train_data_path : string) : M handle :=
  _ ← external "import" (import_ w "sagemaker.tuner");
  _ ← external "SKLearn" (SKLearn_new w prophet_estimator_hpo role);
  _ ← external "ContinuousParameter"
        (parameter_range w (ContinuousParameter (1 # 1000) (5 # 10)));
  _ ← external "ContinuousParameter"
        (parameter_range w (ContinuousParameter (1 # 100) (5 # 1)));
  _ ← external "CategoricalParameter"
        (parameter_range w (CategoricalParameter ["additive"; "multiplicative"]));
  t ← external "HyperparameterTuner" (HyperparameterTuner_new w tuner);
  _ ← external "HyperparameterTuner.fit" (tuner_fit w t {[ "train" := train_data_path ]});
  job_name ← external "HyperparameterTuner.latest_tuning_job" (latest_tuning_job_name w t);
  _ ← external "Session.describe_tuning_job" (describe_tuning_job w sess job_name);
  mret t.

(** Cell 33: deploy the best model of the search. *)
Definition cell_33 (w : World) (role : string) (sess t : handle) : M handle :=
  job_name ← external "HyperparameterTuner.latest_tuning_job" (latest_tuning_job_name w t);
  description ← external "Session.describe_tuning_job" (describe_tuning_job w sess job_name);
  best ← call "dict.__getitem__" (getitem description "BestTrainingJob");
  best_job ← call "dict.__getitem__" (getitem best "TrainingJobName");
  description ← external "Session.describe_training_job"
                  (describe_training_job w sess best_job);
  artifacts ← call "dict.__getitem__" (getitem description "ModelArtifacts");
  best_model ← call "dict.__getitem__" (getitem artifacts "S3ModelArtifacts");
  deploy_model w role best_model.

(** The whole notebook, top to bottom. *)
Definition notebook (w : World) : M unit :=
  _ ← cell_3 w;
  '(role, sess, bucket) ← cell_4 w;
  df ← cell_7 w;
  '(train, test) ← cell_10 df;
  m ← cell_11 w train;
  _ ← cell_12 w m test;
  _ ← cell_15 w sess bucket train test;
  '(est, train_data_path) ← cell_17 w role bucket;
  predictor ← cell_21 w role est;
  predictions ← request_predictions w predictor;
  _ ← plot_predictions_cell w test predictions;
  _ ← delete_endpoint_cell w predictor;
  t ← tuning_cells w role sess train_data_path;
  predictor ← cell_33 w role sess t;
  predictions ← request_predictions w predictor;
  _ ← plot_predictions_cell w test predictions;
  delete_endpoint_cell w predictor.

(** The log and the result of a run from an empty log. *)
Definition run {A} (m : M A) : list entry * result A := m [].

(** ** Vocabulary of the statements *)

(** The first day of the test side: 1 January 2016. *)
Definition split_day : Date := _ymd2ord 2016 1 1.

(** The dataset has a record on day [d]. *)
Definition records_on (df : DataFrame) (d : Date) : Prop :=
  ∃ p, p ∈ df ∧ toordinal p.1 = d.
Definition no_gap_at_split (df : DataFrame) : Prop :=
  loc_PM2_5 is_train df = [] ∨ loc_PM2_5 is_test df = []
  ∨ (records_on df (_ymd2ord 2015 12 31) ∧ records_on df (_ymd2ord 2016 1 1)).

(** No date is missing, and the dates are distinct and strictly increasing. *)
Definition dates_unique_sorted (f : Frame) : Prop :=
  Forall is_Some (ds f) ∧ NoDup (dates f) ∧ StronglySorted Z.lt (dates f).

Definition response_keys : gset string := {[ "ds"; "yhat_lower"; "yhat_upper"; "yhat" ]}.
Definition request_keys : gset string := {[ "start"; "end" ]}.

Definition hyperparameter_names : gset string :=
  {[ "changepoint_prior_scale"; "prediction_periods";
     "seasonality_prior_scale"; "seasonality_mode" ]}.

Definition ok_entry (en : entry) : Prop := raised en = None.

(** A computation propagates failures when, started after calls that all
    returned, it either returns after calls that all returned, or raises the
    exception of the last call it made, every earlier call having returned. *)
Definition propagates {A} (m : M A) : Prop :=
  ∀ log, Forall ok_entry log →
    match m log with
    | (log', Ok _) => Forall ok_entry log'
    | (log', Raise e) =>
        ∃ l last, log' = (l ++ [last])%list ∧ raised last = Some e ∧ Forall ok_entry l
    end.

(** Every recorded entry satisfies [P]. *)
Definition logs_only (P : entry → Prop) {A} (m : M A) : Prop :=
  ∀ log, Forall P log → Forall P (m log).1.

Definition sends_prediction_request (en : entry) : Prop :=
  ∀ request, call_request en = Some request → request = prediction_request.

(** ** Sample inputs *)

(** Two records with no record on 31 December 2015 and 1 January 2016. *)
Definition rows_gap : list Row :=
  [mk_Row 2015 12 30 0 (Some (10 # 1)); mk_Row 2016 1 2 0 (Some (20 # 1))].
Definition df_gap : DataFrame :=
  [(mk_datetime 2015 12 30 0, mk_Row 2015 12 30 0 (Some (10 # 1)));
   (mk_datetime 2016 1 2 0, mk_Row 2016 1 2 0 (Some (20 # 1)))].

(** Four records on four consecutive days around the split, one reading missing. *)
Definition rows_ok : list Row :=
  [mk_Row 2015 12 30 5 (Some (10 # 1)); mk_Row 2015 12 31 23 None;
   mk_Row 2016 1 1 0 (Some (20 # 1)); mk_Row 2016 1 2 7 (Some (30 # 1))].
Definition df_ok : DataFrame :=
  [(mk_datetime 2015 12 30 5, mk_Row 2015 12 30 5 (Some (10 # 1)));
   (mk_datetime 2015 12 31 23, mk_Row 2015 12 31 23 None);
   (mk_datetime 2016 1 1 0, mk_Row 2016 1 1 0 (Some (20 # 1)));
   (mk_datetime 2016 1 2 7, mk_Row 2016 1 2 7 (Some (30 # 1)))].

(** The first daily average of the train part is missing. *)
Definition df_nan : DataFrame :=
  [(mk_datetime 2015 12 30 5, mk_Row 2015 12 30 5 None);
   (mk_datetime 2015 12 31 23, mk_Row 2015 12 31 23 (Some (5 # 1)))].

(** The comparison of the least and the greatest value on exact numbers.
    It agrees with the floating-point one on the samples below, whose daily
    averages are single readings or copies made by the forward fill. *)
Definition constant_y (h : list (Date * Q)) : bool :=
  match h.*2 with
  | [] => true
  | v :: vs => forallb (Qeq_bool v) vs
  end.

(** An optimiser that returns a constant predictive function. *)
Definition stan_constant : Prophet.Backend :=
  {| Prophet.y_min_eq_max := constant_y;
     Prophet.optimizing := fun _ => Ok (fun _ => Prophet.mk_Point (0 # 1) (2 # 1) (1 # 1));
     Prophet.stan_init := fun _ _ => Prophet.mk_Point (0 # 1) (2 # 1) (1 # 1) |}.

(** A fitted model, as an endpoint would load it. *)
Definition model_constant : Prophet.t :=
  {| Prophet.history := Some [];
     Prophet.history_dates := Some [735962; 735963];
     Prophet.params := Some (fun _ => Prophet.mk_Point (0 # 1) (2 # 1) (1 # 1)) |}.

(** A sample world: the CSV holds [rows]; call number [t] raises [e] when
    [fail name t = Some e] for its name, and returns otherwise. *)
Definition guard {A} (fail : string → nat → option exn) (name : string)
    (r : result A) (t : nat) : result A :=
  match fail name t with
  | Some e => Raise e
  | None => r
  end.

Definition world_sample (rows : list Row) (tuning_job : pyobj)
    (fail : string → nat → option exn) : World :=
  {| import_ := fun _ => guard fail "import" (Ok ());
     get_execution_role := guard fail "sagemaker.get_execution_role" (Ok "arn:aws:iam::role");
     Session := guard fail "sagemaker.session.Session" (Ok 1%N);
     default_bucket := fun _ => guard fail "Session.default_bucket" (Ok "bucket");
     requests_get := fun _ => guard fail "requests.get" (Ok 9%N);
     Response_content := fun _ => guard fail "Response.content" (Ok "PK");
     BytesIO := fun _ => guard fail "BytesIO" (Ok 10%N);
     ZipFile := fun _ => guard fail "ZipFile" (Ok 2%N);
     ZipFile_read := fun _ _ => guard fail "ZipFile.read" (Ok "csv");
     decode := fun b _ => guard fail "bytes.decode" (Ok b);
     StringIO := fun _ => guard fail "StringIO" (Ok 11%N);
     read_csv := fun _ => guard fail "pandas.read_csv" (Ok rows);
     stan := stan_constant;
     plot_frame := fun _ => guard fail "DataFrame.plot" (Ok 3%N);
     plot_forecast := fun _ ax => guard fail "DataFrame.plot" (Ok ax);
     to_csv := fun _ => guard fail "DataFrame.to_csv" (Ok "ds,y");
     upload_string_as_file_body := fun _ _ bucket key =>
       guard fail "Session.upload_string_as_file_body"
         (Ok ("s3://" +:+ bucket +:+ "/" +:+ key));
     SKLearn_new := fun _ _ => guard fail "SKLearn" (Ok 4%N);
     estimator_fit := fun _ _ => guard fail "SKLearn.fit" (Ok ());
     model_data := fun _ =>
       guard fail "SKLearn.model_data" (Ok (PyStr "s3://bucket/model.tar.gz"));
     SKLearnModel_new := fun _ _ _ _ _ => guard fail "SKLearnModel" (Ok 5%N);
     deploy := fun _ _ _ => guard fail "SKLearnModel.deploy" (Ok 6%N);
     setattr := fun _ _ => guard fail "setattr" (Ok ());
     predictor_predict := fun _ request =>
       guard fail "Predictor.predict" (Serve.invoke model_constant request);
     pd_DataFrame := fun _ => guard fail "pandas.DataFrame" (Ok 7%N);
     DataFrame_getitem := fun df _ => guard fail "DataFrame.__getitem__" (Ok df);
     pd_to_datetime := fun column => guard fail "pandas.to_datetime" (Ok column);
     DataFrame_setitem := fun _ _ _ => guard fail "DataFrame.__setitem__" (Ok ());
     DataFrame_set_index := fun df _ => guard fail "DataFrame.set_index" (Ok df);
     plot_predictions := fun _ ax => guard fail "DataFrame.plot" (Ok ax);
     delete_endpoint := fun _ => guard fail "Predictor.delete_endpoint" (Ok ());
     parameter_range := fun range =>
       guard fail
         match range with
         | ContinuousParameter _ _ => "ContinuousParameter"
         | CategoricalParameter _ => "CategoricalParameter"
         end (Ok ());
     HyperparameterTuner_new := fun _ => guard fail "HyperparameterTuner" (Ok 8%N);
     tuner_fit := fun _ _ => guard fail "HyperparameterTuner.fit" (Ok ());
     latest_tuning_job_name := fun _ =>
       guard fail "HyperparameterTuner.latest_tuning_job" (Ok "tuning-job");
     describe_tuning_job := fun _ _ => guard fail "Session.describe_tuning_job" (Ok tuning_job);
     describe_training_job := fun _ _ =>
       guard fail "Session.describe_training_job"
         (Ok (PyDict {[ "ModelArtifacts" :=
                          PyDict {[ "S3ModelArtifacts" := PyStr "s3://bucket/best.tar.gz" ]} ]})) |}.

(** The description of a search that has a best training job. *)
Definition tuning_job_done : pyobj :=
  PyDict {[ "HyperParameterTuningJobStatus" := PyStr "Completed";
            "BestTrainingJob" :=
              PyDict {[ "TrainingJobName" := PyStr "best-training-job" ]} ]}.

(** A world in which every call returns. *)
Definition world_ok : World := world_sample rows_ok tuning_job_done (fun _ _ => None).

Definition ConnectionError : exn := PyExc "ConnectionError" "Max retries exceeded".

(** The same world without network: the download raises. *)
Definition world_offline : World :=
  world_sample rows_ok tuning_job_done
    (fun name _ => if String.eqb name "requests.get" then Some ConnectionError else None).

(** ** Further vocabulary and sample inputs *)

(** The calendar fields of a row are those of an hour of a real day. *)
Definition valid_row (x : Row) : Prop :=
  MINYEAR ≤ year x ≤ MAXYEAR ∧ 1 ≤ month x ≤ 12
  ∧ 1 ≤ day x ≤ _days_in_month (year x) (month x) ∧ 0 ≤ hour x ≤ 23.

(** The four calendar fields of a row fit a C [int]. *)
Definition fits_c_int (x : Row) : Prop :=
  - 2 ^ 31 ≤ year x < 2 ^ 31 ∧ - 2 ^ 31 ≤ month x < 2 ^ 31
  ∧ - 2 ^ 31 ≤ day x < 2 ^ 31 ∧ - 2 ^ 31 ≤ hour x < 2 ^ 31.

(** A row under the timestamp made of its own calendar columns. *)
Definition index_entry (x : Row) : datetime * Row :=
  (mk_datetime (year x) (month x) (day x) (hour x), x).

(** A sample with an impossible date in the middle. *)
Definition rows_bad : list Row :=
  [mk_Row 2015 12 30 5 (Some (10 # 1)); mk_Row 2015 2 30 0 None; mk_Row 0 1 1 0 None].

(** A sample whose second row has a year beyond a C [int]. *)
Definition rows_huge : list Row :=
  [mk_Row 2015 12 30 5 (Some (10 # 1)); mk_Row 2147483648 1 1 0 None].

(** A frame before and after the fill of cell 10, with gaps and a missing
    start. *)
Definition frame_gaps : Frame :=
  {| ds := [Some 735962; Some 735963; Some 735964; Some 735965; Some 735966];
     y := [None; None; Some (3 # 1)%Q; None; Some (5 # 1)%Q] |}.

(** Both columns have one cell per row, and each row is the calendar day
    after the row above it. *)
Definition daily_frame (f : Frame) : Prop :=
  length (ds f) = length (y f)
  ∧ (∀ i d d', dates f !! i = Some d → dates f !! S i = Some d' → d' = d + 1)
  ∧ (∀ first final, head (dates f) = Some first → last (dates f) = Some final →
       Z.of_nat (shape0 f) = final - first + 1).

(** Records on 29 December 2015 and 1 January 2016 only, with one reading
    missing. *)
Definition df_sparse : DataFrame :=
  [(mk_datetime 2015 12 29 3, mk_Row 2015 12 29 3 (Some (7 # 1)%Q));
   (mk_datetime 2015 12 31 8, mk_Row 2015 12 31 8 None);
   (mk_datetime 2016 1 1 0, mk_Row 2016 1 1 0 (Some (9 # 1)%Q))].

(** The number of daily averages that are present in a frame. *)
Definition notnull_count (f : Frame) : nat := length (omap id (y f)).

(** An optimiser that does not converge. *)
Definition stan_failing : Prophet.Backend :=
  {| Prophet.y_min_eq_max := constant_y;
     Prophet.optimizing :=
       fun _ => Raise (PyExc "RuntimeError" "Optimization terminated abnormally");
     Prophet.stan_init := fun _ _ => Prophet.mk_Point (0 # 1) (2 # 1) (1 # 1) |}.

(** A single record before 2016. *)
Definition df_single : DataFrame :=
  [(mk_datetime 2015 12 31 8, mk_Row 2015 12 31 8 (Some (4 # 1)%Q));
   (mk_datetime 2016 1 1 0, mk_Row 2016 1 1 0 (Some (9 # 1)%Q))].

(** What the constant optimiser makes of the sample dataset. *)
Definition model_ok : Prophet.t :=
  {| Prophet.history := Some [(735962, (10 # 1)%Q); (735963, (10 # 1)%Q)];
     Prophet.history_dates := Some [735962; 735963];
     Prophet.params := Some (fun _ => Prophet.mk_Point (0 # 1) (2 # 1) (1 # 1)) |}.

Definition forecast_ok : list (Date * Prophet.Point) :=
  [(735964, Prophet.mk_Point (0 # 1) (2 # 1) (1 # 1));
   (735965, Prophet.mk_Point (0 # 1) (2 # 1) (1 # 1))].

(** The library calls of the notebook, in the order of its cells. *)
Definition notebook_calls : list string :=
  ["import"; "import"; "import"; "import"; "import"; "import"; "import"; "import";
   "sagemaker.get_execution_role"; "sagemaker.session.Session";
   "Session.default_bucket"; "requests.get"; "Response.content"; "BytesIO";
   "ZipFile"; "ZipFile.read"; "bytes.decode"; "StringIO"; "pandas.read_csv";
   "DataFrame.apply"; "DataFrame.loc"; "Series.resample"; "Resampler.mean";
   "Series.reset_index"; "DataFrame.rename"; "DataFrame.loc"; "Series.resample";
   "Resampler.mean"; "Series.reset_index"; "DataFrame.rename"; "DataFrame.fillna";
   "DataFrame.fillna"; "Prophet"; "Prophet.fit"; "Prophet.make_future_dataframe";
   "Prophet.predict"; "DataFrame.set_index"; "DataFrame.plot";
   "DataFrame.__getitem__"; "DataFrame.set_index"; "DataFrame.plot";
   "DataFrame.to_csv"; "Session.upload_string_as_file_body"; "DataFrame.to_csv";
   "Session.upload_string_as_file_body"; "import"; "SKLearn"; "SKLearn.fit";
   "import"; "import"; "SKLearn.model_data"; "SKLearnModel"; "SKLearnModel.deploy";
   "setattr"; "setattr"; "Predictor.predict"; "pandas.DataFrame";
   "DataFrame.__getitem__"; "pandas.to_datetime"; "DataFrame.__setitem__";
   "DataFrame.set_index"; "DataFrame.plot"; "DataFrame.__getitem__";
   "DataFrame.set_index"; "DataFrame.plot"; "Predictor.delete_endpoint"; "import";
   "SKLearn"; "ContinuousParameter"; "ContinuousParameter"; "CategoricalParameter";
   "HyperparameterTuner"; "HyperparameterTuner.fit";
   "HyperparameterTuner.latest_tuning_job"; "Session.describe_tuning_job";
   "HyperparameterTuner.latest_tuning_job"; "Session.describe_tuning_job";
   "dict.__getitem__"; "dict.__getitem__"; "Session.describe_training_job";
   "dict.__getitem__"; "dict.__getitem__"; "SKLearnModel"; "SKLearnModel.deploy";
   "setattr"; "setattr"; "Predictor.predict"; "pandas.DataFrame";
   "DataFrame.__getitem__"; "pandas.to_datetime"; "DataFrame.__setitem__";
   "DataFrame.set_index"; "DataFrame.plot"; "DataFrame.__getitem__";
   "DataFrame.set_index"; "DataFrame.plot"; "Predictor.delete_endpoint"].

(** A computation makes the calls [names], in this order, and stops short
    of the rest only by raising. *)
Definition emits (names : list string) {A} (m : M A) : Prop :=
  ∀ log, ∃ k,
    (m log).1 = (log ++ k)%list
    ∧ (call_name <$> k) `prefix_of` names
    ∧ ∀ a, (m log).2 = Ok a → call_name <$> k = names.

(** How many calls named [name] returned. *)
Definition returned (name : string) (log : list entry) : nat :=
  length (filter (fun en => call_name en = name ∧ raised en = None) log).

Definition deployed (log : list entry) : nat := returned "SKLearnModel.deploy" log.
Definition deleted (log : list entry) : nat := returned "Predictor.delete_endpoint" log.

(** The calls that are made only while an endpoint is up (cells 21 to 24
    and 33 to 35). *)
Definition endpoint_calls : list string :=
  ["setattr"; "Predictor.predict"; "pandas.DataFrame"; "pandas.to_datetime";
   "DataFrame.__setitem__"; "Predictor.delete_endpoint"].

(** The calls on frames, made for the local forecast (cell 12) as well as
    while an endpoint is up (cells 23 and 34). *)
Definition frame_calls : list string :=
  ["DataFrame.__getitem__"; "DataFrame.set_index"; "DataFrame.plot"].

Definition TimeoutError : exn := PyExc "ReadTimeoutError" "Read timed out".

(** Everything returns, except that the endpoint does not answer. *)
Definition world_timeout : World :=
  world_sample rows_ok tuning_job_done
    (fun name _ => if String.eqb name "Predictor.predict" then Some TimeoutError else None).

(** Plotting returns during the first [n] calls of the run, and raises from
    then on. *)
Definition world_display_lost (n : nat) : World :=
  world_sample rows_ok tuning_job_done
    (fun name t =>
       if String.eqb name "DataFrame.plot" && (n <=? t)%nat
       then Some (PyExc "RuntimeError" "main thread is not in main loop")
       else None).

(** The hours of the calendar a timestamp of the dataframe library can
    hold: 21 September 1677, 1 o'clock, through 11 April 2262, 23 o'clock. *)
Definition hours (t : datetime) : Z := toordinal t * 24 + dt_hour t.
Definition fits_Timestamp (t : datetime) : Prop :=
  hours (mk_datetime 1677 9 21 1) ≤ hours t ≤ hours (mk_datetime 2262 4 11 23).

(** The CSV has a header and no rows. *)
Definition world_header_only : World := world_sample [] tuning_job_done (fun _ _ => None).

(** Records of the year 1500: dates of the calendar that do not fit a
    timestamp. *)
Definition rows_1500 : list Row :=
  [mk_Row 1500 12 30 5 (Some (10 # 1)%Q); mk_Row 1500 12 31 5 (Some (12 # 1)%Q)].
Definition df_1500 : DataFrame :=
  [(mk_datetime 1500 12 30 5, mk_Row 1500 12 30 5 (Some (10 # 1)%Q));
   (mk_datetime 1500 12 31 5, mk_Row 1500 12 31 5 (Some (12 # 1)%Q))].
Definition world_1500 : World := world_sample rows_1500 tuning_job_done (fun _ _ => None).

(** The platform describes the search once, and refuses from call 75 on. *)
Definition ThrottlingException : exn := PyExc "ClientError" "ThrottlingException".
Definition world_throttled : World :=
  world_sample rows_ok tuning_job_done
    (fun name t =>
       if String.eqb name "Session.describe_tuning_job" && (75 <=? t)%nat
       then Some ThrottlingException
       else None).

(** The search has no best training job to report. *)
Definition world_no_best : World :=
  world_sample rows_ok
    (PyDict {[ "HyperParameterTuningJobStatus" := PyStr "Failed" ]}) (fun _ _ => None).

Definition count_name (name : string) (names : list string) : nat :=
  length (filter (fun s => s = name) names).

(** Records before 2016 only. *)
Definition df_past : DataFrame :=
  [(mk_datetime 2015 12 30 5, mk_Row 2015 12 30 5 (Some (10 # 1)%Q));
   (mk_datetime 2015 12 31 23, mk_Row 2015 12 31 23 (Some (12 # 1)%Q))].

Definition model_past : Prophet.t :=
  {| Prophet.history := Some [(735962, (10 # 1)%Q); (735963, (12 # 1)%Q)];
     Prophet.history_dates := Some [735962; 735963];
     Prophet.params := Some (fun _ => Prophet.mk_Point (0 # 1) (2 # 1) (1 # 1)) |}.



(** * Properties *)

(** ** The definitions on concrete inputs *)

Example ymd2ord_values :
  _ymd2ord 1 1 1 = 1 ∧ _ymd2ord 2000 1 1 = 730120
  ∧ _ymd2ord 2015 12 31 = 735963 ∧ _ymd2ord 2016 1 1 = 735964
  ∧ _ymd2ord 2017 2 28 = 736388.
Proof. repeat split. Qed.

Example is_leap_values :
  _is_leap 2016 = true ∧ _is_leap 2015 = false
  ∧ _is_leap 1900 = false ∧ _is_leap 2000 = true.
Proof. repeat split. Qed.

Example new_datetime_values :
  new_datetime 2016 2 29 23 = Ok (mk_datetime 2016 2 29 23)
  ∧ new_datetime 2015 2 29 0 = Raise (ValueError "day is out of range for month")
  ∧ new_datetime 2015 13 1 0 = Raise (ValueError "month must be in 1..12")
  ∧ new_datetime 2015 1 1 24 = Raise (ValueError "hour must be in 0..23").
Proof. repeat split. Qed.

Example set_datetime_index_raises :
  set_datetime_index [mk_Row 2015 12 30 5 None; mk_Row 2015 2 30 0 None; mk_Row 0 1 1 0 None]
  = Raise (ValueError "day is out of range for month").
Proof. reflexivity. Qed.

Example resample_1D_mean_values :
  resample_1D_mean
    [(mk_datetime 2016 1 3 7, Some (4 # 1)%Q); (mk_datetime 2016 1 1 0, Some (1 # 1)%Q);
     (mk_datetime 2016 1 1 5, None); (mk_datetime 2016 1 1 9, Some (2 # 1)%Q)]
  = [(735964, Some (3 # 2)%Q); (735965, None); (735966, Some (4 # 1)%Q)].
Proof. reflexivity. Qed.

Example ffill_values :
  ffill [None; Some 1; None; None; Some 2; None]
  = [None; Some 1; Some 1; Some 1; Some 2; Some 2].
Proof. reflexivity. Qed.

Example to_datetime_values :
  Serve.to_datetime "1-1-2016" = Ok 735964
  ∧ Serve.to_datetime "2-28-2017" = Ok 736388
  ∧ Serve.to_datetime "2-30-2017" = Raise (ValueError "day is out of range for month")
  ∧ Serve.to_datetime "tomorrow" = Raise (ValueError "Unknown string format").
Proof. repeat split. Qed.

Example make_future_dataframe_values :
  Prophet.make_future_dataframe model_constant 3 = Ok [735964; 735965; 735966].
Proof. reflexivity. Qed.

(** ** Calendar arithmetic *)

Lemma days_before_year_mono (a b : Z) : a ≤ b → _days_before_year a ≤ _days_before_year b.
Proof. unfold _days_before_year. intros. Z.to_euclidean_division_equations. lia. Qed.

Lemma days_before_year_succ (yr : Z) :
  _days_before_year (yr + 1) = _days_before_year yr + 365 + (if _is_leap yr then 1 else 0).
Proof.
  unfold _days_before_year, _is_leap.
  replace (yr + 1 - 1) with yr by lia.
  destruct (Z.eqb_spec (yr mod 4) 0), (Z.eqb_spec (yr mod 100) 0), (Z.eqb_spec (yr mod 400) 0);
    simpl; Z.to_euclidean_division_equations; lia.
Qed.

Lemma month_cases (m : Z) : 1 ≤ m ≤ 12 →
  m = 1 ∨ m = 2 ∨ m = 3 ∨ m = 4 ∨ m = 5 ∨ m = 6 ∨ m = 7 ∨ m = 8 ∨ m = 9 ∨ m = 10 ∨ m = 11 ∨ m = 12.
Proof. lia. Qed.

Lemma days_in_year_bound (yr m : Z) : 1 ≤ m ≤ 12 →
  0 ≤ _days_before_month yr m ∧
  _days_before_month yr m + _days_in_month yr m ≤ 365 + (if _is_leap yr then 1 else 0).
Proof.
  intros Hm. unfold _days_before_month, _days_in_month.
  destruct (month_cases m Hm) as [->|[->|[->|[->|[->|[->|[->|[->|[->|[->|[->| ->]]]]]]]]]]];
    destruct (_is_leap yr); vm_compute; split; discriminate.
Qed.

Lemma check_date_fields_ok yr m d :
  _check_date_fields yr m d = Ok () ↔
  (MINYEAR ≤ yr ≤ MAXYEAR) ∧ (1 ≤ m ≤ 12) ∧ (1 ≤ d ≤ _days_in_month yr m).
Proof.
  unfold _check_date_fields, MINYEAR, MAXYEAR.
  destruct (Z.leb_spec 1 yr), (Z.leb_spec yr 9999), (Z.leb_spec 1 m), (Z.leb_spec m 12),
    (Z.leb_spec 1 d), (Z.leb_spec d (_days_in_month yr m)); cbn;
    (split; [intros; try discriminate; lia | intros; try reflexivity; lia]).
Qed.

Lemma check_hour_ok h : _check_hour h = Ok () ↔ 0 ≤ h ≤ 23.
Proof.
  unfold _check_hour.
  destruct (Z.leb_spec 0 h), (Z.leb_spec h 23); cbn;
    (split; [intros; try discriminate; lia | intros; try reflexivity; lia]).
Qed.

Lemma as_c_int_ok v v' : _as_c_int v = Ok v' ↔ v' = v ∧ - 2 ^ 31 ≤ v < 2 ^ 31.
Proof.
  unfold _as_c_int.
  destruct (Z.leb_spec (- 2 ^ 63) v), (Z.ltb_spec v (2 ^ 63)), (Z.leb_spec (2 ^ 31) v),
    (Z.ltb_spec v (- 2 ^ 31)); cbn [negb andb];
    (split; [intros [= <-] || intros [=]; lia | intros (-> & ?); (reflexivity || lia)]).
Qed.

Lemma days_in_month_le_31 yr m : 1 ≤ m ≤ 12 → _days_in_month yr m ≤ 31.
Proof.
  intros Hm. unfold _days_in_month.
  destruct (month_cases m Hm) as [->|[->|[->|[->|[->|[->|[->|[->|[->|[->|[->| ->]]]]]]]]]]];
    destruct (_is_leap yr); vm_compute; discriminate.
Qed.

Lemma new_datetime_ok yr m d h t :
  new_datetime yr m d h = Ok t ↔
  t = mk_datetime yr m d h ∧ (MINYEAR ≤ yr ≤ MAXYEAR) ∧ (1 ≤ m ≤ 12)
  ∧ (1 ≤ d ≤ _days_in_month yr m) ∧ 0 ≤ h ≤ 23.
Proof.
  unfold new_datetime. split.
  - destruct (_as_c_int yr) as [yr'|] eqn:Hy; [|done].
    destruct (_as_c_int m) as [m'|] eqn:Hm; [|done].
    destruct (_as_c_int d) as [d'|] eqn:Hd; [|done].
    destruct (_as_c_int h) as [h'|] eqn:Hh; [|done].
    apply as_c_int_ok in Hy as [-> _], Hm as [-> _], Hd as [-> _], Hh as [-> _]. cbn.
    destruct (_check_date_fields yr m d) as [[]|] eqn:Hdate; [|done].
    destruct (_check_hour h) as [[]|] eqn:Hhour; [|done]. cbn.
    apply check_date_fields_ok in Hdate. apply check_hour_ok in Hhour.
    intros [= <-]. tauto.
  - intros (-> & Hy & Hm & Hd & Hh).
    pose proof (days_in_month_le_31 yr m Hm). unfold MINYEAR, MAXYEAR in Hy.
    rewrite (proj2 (as_c_int_ok yr yr)) by lia. cbn.
    rewrite (proj2 (as_c_int_ok m m)) by lia. cbn.
    rewrite (proj2 (as_c_int_ok d d)) by lia. cbn.
    rewrite (proj2 (as_c_int_ok h h)) by lia. cbn.
    rewrite (proj2 (check_date_fields_ok yr m d)) by done. cbn.
    by rewrite (proj2 (check_hour_ok h)).
Qed.

(** The ordinal of a valid date lies within its year. *)
Lemma ymd2ord_within_year yr m d :
  1 ≤ m ≤ 12 → 1 ≤ d ≤ _days_in_month yr m →
  _days_before_year yr < _ymd2ord yr m d ≤ _days_before_year (yr + 1).
Proof.
  intros Hm Hd. rewrite days_before_year_succ. unfold _ymd2ord.
  pose proof (days_in_year_bound yr m Hm). lia.
Qed.

Lemma ymd2ord_before_split yr m d :
  1 ≤ m ≤ 12 → 1 ≤ d ≤ _days_in_month yr m → yr < 2016 → _ymd2ord yr m d < _ymd2ord 2016 1 1.
Proof.
  intros Hm Hd Hy. pose proof (ymd2ord_within_year _ _ _ Hm Hd).
  pose proof (days_before_year_mono (yr + 1) 2016 ltac:(lia)).
  change (_ymd2ord 2016 1 1) with (_days_before_year 2016 + 1). lia.
Qed.

Lemma ymd2ord_from_split yr m d :
  1 ≤ m ≤ 12 → 1 ≤ d ≤ _days_in_month yr m → 2016 ≤ yr → _ymd2ord 2016 1 1 ≤ _ymd2ord yr m d.
Proof.
  intros Hm Hd Hy. pose proof (ymd2ord_within_year _ _ _ Hm Hd).
  pose proof (days_before_year_mono 2016 yr ltac:(lia)).
  change (_ymd2ord 2016 1 1) with (_days_before_year 2016 + 1). lia.
Qed.

(** ** Daily resampling *)

Section resample.
Implicit Types (s : Series) (df : DataFrame) (d : Z).

Lemma min_list_Z_spec d0 (l : list Z) :
  min_list_Z d0 l ∈ d0 :: l ∧ ∀ x, x ∈ d0 :: l → min_list_Z d0 l ≤ x.
Proof.
  unfold min_list_Z, max_list_Z.
  induction l as [|a l [IHin IHle]]; cbn.
  - split; [left|]. intros x ->%list_elem_of_singleton. lia.
  - split.
    + destruct (Z.min_spec a (foldr Z.min d0 l)) as [[_ ->]|[_ ->]].
      * right; left.
      * apply elem_of_cons in IHin as [->|?]; [left|right; right]; done.
    + intros x Hx.
      assert (x = a ∨ x ∈ d0 :: l) as [->|Hx'].
      { rewrite !elem_of_cons in Hx. rewrite elem_of_cons. tauto. }
      * lia.
      * specialize (IHle x Hx'). lia.
Qed.

Lemma max_list_Z_spec d0 (l : list Z) :
  max_list_Z d0 l ∈ d0 :: l ∧ ∀ x, x ∈ d0 :: l → x ≤ max_list_Z d0 l.
Proof.
  unfold min_list_Z, max_list_Z.
  induction l as [|a l [IHin IHle]]; cbn.
  - split; [left|]. intros x ->%list_elem_of_singleton. lia.
  - split.
    + destruct (Z.max_spec a (foldr Z.max d0 l)) as [[_ ->]|[_ ->]].
      * apply elem_of_cons in IHin as [->|?]; [left|right; right]; done.
      * right; left.
    + intros x Hx.
      assert (x = a ∨ x ∈ d0 :: l) as [->|Hx'].
      { rewrite !elem_of_cons in Hx. rewrite elem_of_cons. tauto. }
      * lia.
      * specialize (IHle x Hx'). lia.
Qed.

Lemma day_bounds_None s : day_bounds s = None ↔ s = [].
Proof. unfold day_bounds. destruct s; cbn; split; done. Qed.

Lemma day_bounds_Some s lo hi :
  day_bounds s = Some (lo, hi) →
  (∃ p, p ∈ s ∧ toordinal p.1 = lo) ∧ (∃ q, q ∈ s ∧ toordinal q.1 = hi)
  ∧ ∀ p, p ∈ s → lo ≤ toordinal p.1 ≤ hi.
Proof.
  unfold day_bounds. destruct ((toordinal ∘ fst) <$> s) as [|d0 l] eqn:E; [done|].
  intros [= <- <-].
  destruct (min_list_Z_spec d0 l) as [Hmin Hle], (max_list_Z_spec d0 l) as [Hmax Hge].
  rewrite <- E in Hmin, Hmax, Hle, Hge.
  apply list_elem_of_fmap in Hmin as (p & Hp & Hpin).
  apply list_elem_of_fmap in Hmax as (q & Hq & Hqin).
  split; [by exists p|]. split; [by exists q|].
  intros r Hr.
  assert ((toordinal ∘ fst) r ∈ (toordinal ∘ fst) <$> s) as Hin
    by (apply list_elem_of_fmap; eauto).
  specialize (Hle _ Hin). specialize (Hge _ Hin). cbn in *. lia.
Qed.

(** The daily index of a resampled series: every day between two of its
    records, and nothing else. *)
Lemma elem_of_resample_index s d :
  d ∈ (resample_1D_mean s).*1 ↔
  ∃ p q, p ∈ s ∧ q ∈ s ∧ toordinal p.1 ≤ d ≤ toordinal q.1.
Proof.
  unfold resample_1D_mean.
  destruct (day_bounds s) as [[lo hi]|] eqn:E.
  - destruct (day_bounds_Some _ _ _ E) as ((p & Hp & <-) & (q & Hq & <-) & Hall).
    split.
    + intros (r & -> & (d' & -> & Hd')%list_elem_of_fmap)%list_elem_of_fmap.
      apply elem_of_seqZ in Hd'. cbn. exists p, q. split_and!; [done..|lia|lia].
    + intros (p' & q' & Hp' & Hq' & ?).
      pose proof (Hall _ Hp'). pose proof (Hall _ Hq').
      apply list_elem_of_fmap. exists (d, mean (day_values s d)). split; [done|].
      apply list_elem_of_fmap. exists d. split; [done|].
      apply elem_of_seqZ. lia.
  - apply day_bounds_None in E as ->. cbn. split.
    + intros []%elem_of_nil.
    + intros (p & _ & []%elem_of_nil & _).
Qed.
End resample.

(** ** Frames and selections *)

Lemma ffill_from_Some {A} (last : option A) (l : list A) :
  ffill_from last (Some <$> l) = Some <$> l.
Proof. revert last. induction l as [|a l IH]; intros last; cbn; [done|]. by rewrite IH. Qed.

Lemma omap_id_Some {A} (l : list A) : omap id (Some <$> l) = l.
Proof. induction l as [|a l IH]; cbn; [done|]. by rewrite IH. Qed.

Lemma ds_reset_index r : ds (reset_index_rename r) = Some <$> r.*1.
Proof. unfold reset_index_rename; cbn. by rewrite list_fmap_compose. Qed.

Lemma ds_fillna_reset_index r :
  ds (fillna_ffill (reset_index_rename r)) = Some <$> r.*1.
Proof. unfold fillna_ffill; cbn -[reset_index_rename]. rewrite ds_reset_index. apply ffill_from_Some. Qed.

Lemma dates_fillna_reset_index r : dates (fillna_ffill (reset_index_rename r)) = r.*1.
Proof. unfold dates. rewrite ds_fillna_reset_index. apply omap_id_Some. Qed.

Lemma dates_train df : dates (train df) = (resample_1D_mean (loc_PM2_5 is_train df)).*1.
Proof. apply dates_fillna_reset_index. Qed.

Lemma dates_test df : dates (test df) = (resample_1D_mean (loc_PM2_5 is_test df)).*1.
Proof. apply dates_fillna_reset_index. Qed.

Lemma elem_of_loc mask (df : DataFrame) (p : datetime * option Q) :
  p ∈ loc_PM2_5 mask df ↔ ∃ x, (p.1, x) ∈ df ∧ mask x = true ∧ p.2 = PM2_5 x.
Proof.
  unfold loc_PM2_5. rewrite list_elem_of_fmap. split.
  - intros ([t x] & -> & [Hm Hin]%list_elem_of_filter). by exists x.
  - intros (x & Hin & Hm & Hv). exists (p.1, x). split.
    + destruct p; cbn in *; by subst.
    + by apply list_elem_of_filter.
Qed.

Lemma set_datetime_index_elem rows df :
  set_datetime_index rows = Ok df →
  df.*2 = rows ∧ ∀ p, p ∈ df → index_of_row p.2 = Ok p.1.
Proof.
  unfold set_datetime_index. revert df.
  induction rows as [|x rows IH]; intros df; cbn.
  - intros [= <-]. split; [done|]. intros p []%elem_of_nil.
  - destruct (index_of_row x) as [t|] eqn:Hx; cbn; [|done].
    destruct (result_mapM _ rows) as [df'|] eqn:Hr; cbn; [|done].
    intros [= <-]. destruct (IH _ eq_refl) as [IH1 IH2].
    split; [cbn; by rewrite IH1|].
    intros p [->|Hp]%elem_of_cons; [done|by apply IH2].
Qed.

(** The year column decides on which side of 1 January 2016 an indexed
    record lies. *)
Lemma indexed_row_side (p : datetime * Row) :
  index_of_row p.2 = Ok p.1 →
  if is_train p.2 then toordinal p.1 < _ymd2ord 2016 1 1 ∧ is_test p.2 = false
  else _ymd2ord 2016 1 1 ≤ toordinal p.1 ∧ is_test p.2 = true.
Proof.
  destruct p as [t x]; cbn. unfold index_of_row.
  intros (-> & _ & Hm & Hd & _)%new_datetime_ok.
  unfold is_train, is_test, toordinal; cbn.
  destruct (Z.ltb_spec (year x) 2016), (Z.leb_spec 2016 (year x)); try lia.
  - split; [|done]. by apply ymd2ord_before_split.
  - split; [|done]. by apply ymd2ord_from_split.
Qed.

(** ** The split at 1 January 2016 *)

Section split.
Context (rows : list Row) (df : DataFrame).
Hypothesis Hindexed : set_datetime_index rows = Ok df.

Lemma train_before_split q : q ∈ loc_PM2_5 is_train df → toordinal q.1 < split_day.
Proof.
  intros (x & Hin & Hm & _)%elem_of_loc.
  destruct (set_datetime_index_elem _ _ Hindexed) as [_ Hwf].
  pose proof (indexed_row_side _ (Hwf _ Hin)) as Hs. cbn in Hs.
  rewrite Hm in Hs. apply Hs.
Qed.

Lemma test_from_split q : q ∈ loc_PM2_5 is_test df → split_day ≤ toordinal q.1.
Proof.
  intros (x & Hin & Hm & _)%elem_of_loc.
  destruct (set_datetime_index_elem _ _ Hindexed) as [_ Hwf].
  pose proof (indexed_row_side _ (Hwf _ Hin)) as Hs. cbn in Hs.
  destruct (is_train x); [destruct Hs; congruence|apply Hs].
Qed.

Lemma record_side p :
  p ∈ df →
  (toordinal p.1 < split_day ∧ is_train p.2 = true ∧ (p.1, PM2_5 p.2) ∈ loc_PM2_5 is_train df)
  ∨ (split_day ≤ toordinal p.1 ∧ is_train p.2 = false ∧ (p.1, PM2_5 p.2) ∈ loc_PM2_5 is_test df).
Proof.
  intros Hin.
  destruct (set_datetime_index_elem _ _ Hindexed) as [_ Hwf].
  pose proof (indexed_row_side _ (Hwf _ Hin)) as Hs.
  destruct p as [t x]; cbn in *.
  destruct (is_train x) eqn:Hm; [left|right]; (split; [apply Hs|split; [done|]]);
    apply elem_of_loc; exists x; cbn; intuition.
Qed.

Lemma loc_all_elem q : q ∈ loc_PM2_5 (fun _ => true) df ↔ ∃ x, (q.1, x) ∈ df ∧ q.2 = PM2_5 x.
Proof. rewrite elem_of_loc. split; intros (x & ? & ?); exists x; intuition. Qed.

Lemma train_dates_before d : d ∈ dates (train df) → d < split_day.
Proof.
  rewrite dates_train, elem_of_resample_index.
  intros (p & q & _ & Hq%train_before_split & ?). lia.
Qed.

Lemma test_dates_from d : d ∈ dates (test df) → split_day ≤ d.
Proof.
  rewrite dates_test, elem_of_resample_index.
  intros (p & q & Hp%test_from_split & _ & ?). lia.
Qed.

Lemma split_within_full_range d :
  d ∈ dates (train df) ∨ d ∈ dates (test df) → d ∈ full_range df.
Proof.
  unfold full_range. rewrite dates_train, dates_test, !elem_of_resample_index.
  intros [(p & q & Hp & Hq & ?)|(p & q & Hp & Hq & ?)];
    exists p, q; (split_and!; [| |lia|lia]);
    apply loc_all_elem;
    match goal with
    | H : ?r ∈ loc_PM2_5 _ df |- ∃ x, (?r.1, x) ∈ df ∧ _ =>
        apply elem_of_loc in H as (x & ? & _ & ?); by exists x
    end.
Qed.

Lemma split_covers_iff :
  (∀ d, d ∈ full_range df → d ∈ dates (train df) ∨ d ∈ dates (test df))
  ↔ no_gap_at_split df.
Proof.
  assert (_ymd2ord 2015 12 31 = split_day - 1) as HD by (vm_compute; reflexivity).
  unfold no_gap_at_split. rewrite HD. fold split_day. split.
  - intros Hcov.
    destruct (loc_PM2_5 is_train df) as [|p tr] eqn:Etr; [by left|].
    destruct (loc_PM2_5 is_test df) as [|q te] eqn:Ete; [by right; left|].
    right; right.
    assert (p ∈ loc_PM2_5 is_train df) as Hp by (rewrite Etr; left).
    assert (q ∈ loc_PM2_5 is_test df) as Hq by (rewrite Ete; left).
    pose proof (train_before_split _ Hp). pose proof (test_from_split _ Hq).
    assert (∀ d, split_day - 1 ≤ d ≤ split_day → d ∈ full_range df) as Hfull.
    { intros d Hd. unfold full_range. apply elem_of_resample_index.
      exists p, q. split_and!; [| |lia|lia]; apply loc_all_elem.
      - apply elem_of_loc in Hp as (x & ? & _ & ?); by exists x.
      - apply elem_of_loc in Hq as (x & ? & _ & ?); by exists x. }
    split.
    + destruct (Hcov (split_day - 1) (Hfull (split_day - 1) ltac:(lia))) as [Hin|Hin%test_dates_from]; [|lia].
      rewrite dates_train in Hin. apply elem_of_resample_index in Hin
        as (a & b & _ & Hb & ?).
      pose proof (train_before_split _ Hb).
      apply elem_of_loc in Hb as (x & Hx & _). exists (b.1, x). split; [done|]. cbn. lia.
    + destruct (Hcov split_day (Hfull split_day ltac:(lia))) as [Hin%train_dates_before|Hin]; [lia|].
      rewrite dates_test in Hin. apply elem_of_resample_index in Hin
        as (a & b & Ha & _ & ?).
      pose proof (test_from_split _ Ha).
      apply elem_of_loc in Ha as (x & Hx & _). exists (a.1, x). split; [done|]. cbn. lia.
  - intros Hgap d. unfold full_range. rewrite elem_of_resample_index.
    intros (p & q & (xp & Hp & _)%loc_all_elem & (xq & Hq & _)%loc_all_elem & Hd).
    pose proof (record_side _ Hp) as Sp. pose proof (record_side _ Hq) as Sq.
    cbn in Sp, Sq.
    destruct Hgap as [Etr|[Ete|[(a & Ha & Hda) (b & Hb & Hdb)]]].
    + right. rewrite dates_test. apply elem_of_resample_index.
      destruct Sp as [(_ & _ & Hin)|(_ & _ & Hp')]; [rewrite Etr in Hin; by apply elem_of_nil in Hin|].
      destruct Sq as [(_ & _ & Hin)|(_ & _ & Hq')]; [rewrite Etr in Hin; by apply elem_of_nil in Hin|].
      eexists _, _. split_and!; [exact Hp'|exact Hq'|cbn; lia|cbn; lia].
    + left. rewrite dates_train. apply elem_of_resample_index.
      destruct Sp as [(_ & _ & Hp')|(_ & _ & Hin)]; [|rewrite Ete in Hin; by apply elem_of_nil in Hin].
      destruct Sq as [(_ & _ & Hq')|(_ & _ & Hin)]; [|rewrite Ete in Hin; by apply elem_of_nil in Hin].
      eexists _, _. split_and!; [exact Hp'|exact Hq'|cbn; lia|cbn; lia].
    + pose proof (record_side _ Ha) as Sa. pose proof (record_side _ Hb) as Sb.
      destruct (Z.lt_ge_cases d split_day).
      * left. rewrite dates_train. apply elem_of_resample_index.
        destruct Sp as [(_ & _ & Hp')|(? & _)]; [|lia].
        destruct Sa as [(_ & _ & Ha')|(? & _)]; [|lia].
        eexists _, _. split_and!; [exact Hp'|exact Ha'|cbn; lia|cbn; lia].
      * right. rewrite dates_test. apply elem_of_resample_index.
        destruct Sq as [(? & _)|(_ & _ & Hq')]; [lia|].
        destruct Sb as [(? & _)|(_ & _ & Hb')]; [lia|].
        eexists _, _. split_and!; [exact Hb'|exact Hq'|cbn; lia|cbn; lia].
Qed.
End split.

(** ** Sorted dates and forward fill *)

Lemma StronglySorted_seqZ m n : StronglySorted Z.lt (seqZ m n).
Proof.
  remember (Z.to_nat n) as k eqn:Hk. revert m n Hk.
  induction k as [|k IH]; intros m n Hk.
  - rewrite seqZ_nil by lia. constructor.
  - rewrite seqZ_cons by lia. constructor.
    + apply IH. lia.
    + apply Forall_seqZ. lia.
Qed.

Lemma fmap_fst_graph {A B} (g : A → B) (l : list A) : ((fun a => (a, g a)) <$> l).*1 = l.
Proof. induction l as [|a l IH]; cbn; [done|]. by rewrite IH. Qed.

Lemma resample_index_eq s :
  (resample_1D_mean s).*1 =
  match day_bounds s with
  | None => []
  | Some (lo, hi) => seqZ lo (hi - lo + 1)
  end.
Proof.
  unfold resample_1D_mean. destruct (day_bounds s) as [[lo hi]|]; [|done].
  apply fmap_fst_graph.
Qed.

Lemma resample_index_sorted s :
  NoDup (resample_1D_mean s).*1 ∧ StronglySorted Z.lt (resample_1D_mean s).*1.
Proof.
  rewrite resample_index_eq. destruct (day_bounds s) as [[lo hi]|].
  - split; [apply NoDup_seqZ|apply StronglySorted_seqZ].
  - split; constructor.
Qed.

Lemma Forall_is_Some_fmap {A} (l : list A) : Forall is_Some (Some <$> l).
Proof. apply Forall_fmap, Forall_forall. intros x _. by exists x. Qed.

Lemma reset_index_unique_sorted s :
  dates_unique_sorted (reset_index_rename (resample_1D_mean s)).
Proof.
  unfold dates_unique_sorted, dates. rewrite ds_reset_index, omap_id_Some.
  split; [apply Forall_is_Some_fmap|apply resample_index_sorted].
Qed.

Lemma ffill_from_all_Some {A} (last : option A) (col : list (option A)) :
  Forall is_Some col → ffill_from last col = col.
Proof.
  intros H. revert last. induction H as [|c col [a ->] _ IH]; intros last; cbn; [done|].
  by rewrite IH.
Qed.

Lemma fillna_ffill_ds f : Forall is_Some (ds f) → ds (fillna_ffill f) = ds f.
Proof. intros H. cbn. by apply ffill_from_all_Some. Qed.

Lemma fillna_ffill_unique_sorted f :
  dates_unique_sorted f → dates_unique_sorted (fillna_ffill f).
Proof.
  intros (Hs & Hn & Ho). unfold dates_unique_sorted, dates.
  rewrite fillna_ffill_ds by done. done.
Qed.

Lemma ffill_from_Some_last {A} (last : option A) (col : list (option A)) :
  is_Some last → Forall is_Some (ffill_from last col).
Proof.
  revert last. induction col as [|c col IH]; intros last Hl; cbn; [constructor|].
  assert (is_Some (match c with Some _ => c | None => last end)) as Hv
    by (destruct c; [by eexists|done]).
  constructor; [done|by apply IH].
Qed.

Lemma ffill_head_Some {A} (v : A) (col : list (option A)) :
  head col = Some (Some v) → Forall is_Some (ffill col).
Proof.
  destruct col as [|c col]; [done|]. intros [= ->]. unfold ffill; cbn.
  constructor; [by eexists|]. apply ffill_from_Some_last. by eexists.
Qed.

Lemma ffill_head_None {A} (col : list (option A)) :
  head col = Some None → head (ffill col) = Some None.
Proof. destruct col as [|c col]; [done|]. by intros [= ->]. Qed.

(** ** The train and test frames *)

Example set_datetime_index_gap : set_datetime_index rows_gap = Ok df_gap.
Proof. reflexivity. Qed.
Example full_range_gap : full_range df_gap = [735962; 735963; 735964; 735965].
Proof. reflexivity. Qed.
Example train_gap : dates (train df_gap) = [735962] ∧ dates (test df_gap) = [735965].
Proof. split; reflexivity. Qed.
Example train_ok_frame :
  train_resampled df_ok = mk_Frame [Some 735962; Some 735963] [Some (10 # 1)%Q; None]
  ∧ train df_ok = mk_Frame [Some 735962; Some 735963] [Some (10 # 1)%Q; Some (10 # 1)%Q].
Proof. split; vm_compute; reflexivity. Qed.

(** C1 as stated fails: with records on 30 December 2015 and 2 January 2016
    only, the train frame holds 30 December, the test frame 2 January, and
    the two days in between belong to the full range of the dataset but to
    neither frame. *)
Lemma split_covers_counterexample :
  set_datetime_index rows_gap = Ok df_gap
  ∧ ¬ (∀ d, d ∈ full_range df_gap → d ∈ dates (train df_gap) ∨ d ∈ dates (test df_gap)).
Proof.
  split; [reflexivity|]. intros H.
  destruct (H 735963) as [Hin|Hin].
  - change (full_range df_gap) with [735962; 735963; 735964; 735965].
    right; left.
  - change (dates (train df_gap)) with [735962] in Hin.
    apply list_elem_of_singleton in Hin. discriminate.
  - change (dates (test df_gap)) with [735965] in Hin.
    apply list_elem_of_singleton in Hin. discriminate.
Qed.

(** C1 (amended): every record goes to exactly one side of the split (train:
    year < 2016, test: year >= 2016) and its day is a date of that frame
    only; the train and test dates are disjoint and lie in the full date
    range of the dataset; their union is the full range exactly when one
    side is empty or the dataset has a record on both 31 December 2015 and
    1 January 2016, hence whenever the dataset has a record on every day of
    its range. *)
Theorem train_test_split rows df :
  set_datetime_index rows = Ok df →
  (∀ x, x ∈ rows → is_train x = negb (is_test x))
  ∧ (∀ p, p ∈ df →
       if is_train p.2
       then toordinal p.1 ∈ dates (train df) ∧ toordinal p.1 ∉ dates (test df)
       else toordinal p.1 ∈ dates (test df) ∧ toordinal p.1 ∉ dates (train df))
  ∧ (∀ d, d ∈ dates (train df) → d ∉ dates (test df))
  ∧ (∀ d, d ∈ dates (train df) ∨ d ∈ dates (test df) → d ∈ full_range df)
  ∧ ((∀ d, d ∈ full_range df → d ∈ dates (train df) ∨ d ∈ dates (test df))
     ↔ no_gap_at_split df)
  ∧ ((∀ d, d ∈ full_range df → records_on df d) →
     ∀ d, d ∈ full_range df → d ∈ dates (train df) ∨ d ∈ dates (test df)).
Proof.
  intros Hidx.
  assert (∀ p, p ∈ df →
            if is_train p.2
            then toordinal p.1 ∈ dates (train df) ∧ toordinal p.1 ∉ dates (test df)
            else toordinal p.1 ∈ dates (test df) ∧ toordinal p.1 ∉ dates (train df))
    as Hrecord.
  { intros p Hp.
    destruct (record_side _ _ Hidx _ Hp) as [(Hlt & -> & Hin)|(Hge & -> & Hin)].
    - split.
      + rewrite dates_train. apply elem_of_resample_index.
        exists (p.1, PM2_5 p.2), (p.1, PM2_5 p.2). cbn. split_and!; (done || lia).
      + intros Hd%(test_dates_from _ _ Hidx). lia.
    - split.
      + rewrite dates_test. apply elem_of_resample_index.
        exists (p.1, PM2_5 p.2), (p.1, PM2_5 p.2). cbn. split_and!; (done || lia).
      + intros Hd%(train_dates_before _ _ Hidx). lia. }
  split_and!.
  - intros x _. unfold is_train, is_test.
    destruct (Z.ltb_spec (year x) 2016), (Z.leb_spec 2016 (year x)); cbn; (done || lia).
  - exact Hrecord.
  - intros d Htr%(train_dates_before _ _ Hidx) Hte%(test_dates_from _ _ Hidx). lia.
  - apply split_within_full_range.
  - apply (split_covers_iff _ _ Hidx).
  - intros Hevery d (p & Hp & <-)%Hevery.
    specialize (Hrecord p Hp). destruct (is_train p.2); [left|right]; apply Hrecord.
Qed.

(** On four consecutive days around the split nothing is omitted. *)
Lemma train_test_split_witness :
  set_datetime_index rows_ok = Ok df_ok
  ∧ no_gap_at_split df_ok
  ∧ (∀ d, d ∈ full_range df_ok → records_on df_ok d)
  ∧ (∀ d, d ∈ full_range df_ok → d ∈ dates (train df_ok) ∨ d ∈ dates (test df_ok)).
Proof.
  assert (no_gap_at_split df_ok) as Hgap.
  { right; right. split.
    - exists (mk_datetime 2015 12 31 23, mk_Row 2015 12 31 23 None).
      split; [right; left|reflexivity].
    - exists (mk_datetime 2016 1 1 0, mk_Row 2016 1 1 0 (Some (20 # 1)%Q)).
      split; [right; right; left|reflexivity]. }
  assert (∀ d, d ∈ full_range df_ok → records_on df_ok d) as Hevery.
  { intros d Hd. change (full_range df_ok) with [735962; 735963; 735964; 735965] in Hd.
    rewrite !elem_of_cons, elem_of_nil in Hd.
    destruct Hd as [->|[->|[->|[->|[]]]]].
    - exists (mk_datetime 2015 12 30 5, mk_Row 2015 12 30 5 (Some (10 # 1)%Q)).
      split; [left|reflexivity].
    - exists (mk_datetime 2015 12 31 23, mk_Row 2015 12 31 23 None).
      split; [right; left|reflexivity].
    - exists (mk_datetime 2016 1 1 0, mk_Row 2016 1 1 0 (Some (20 # 1)%Q)).
      split; [right; right; left|reflexivity].
    - exists (mk_datetime 2016 1 2 7, mk_Row 2016 1 2 7 (Some (30 # 1)%Q)).
      split; [right; right; right; left|reflexivity]. }
  split; [reflexivity|]. split; [exact Hgap|]. split; [exact Hevery|].
  destruct (train_test_split rows_ok df_ok eq_refl) as (_ & _ & _ & _ & Hiff & Hcov).
  pose proof (proj2 Hiff Hgap) as Hcov'.
  exact (Hcov Hevery).
Defined.

(** C4: in the train and the test frame the dates are all present, pairwise
    distinct and strictly increasing, before and after the forward fill,
    which leaves the date column of such a frame as it is. *)
Theorem frames_dates_unique_sorted df :
  dates_unique_sorted (train_resampled df)
  ∧ dates_unique_sorted (test_resampled df)
  ∧ (∀ f, dates_unique_sorted f →
          ds (fillna_ffill f) = ds f ∧ dates_unique_sorted (fillna_ffill f))
  ∧ dates_unique_sorted (train df)
  ∧ dates_unique_sorted (test df).
Proof.
  split_and!.
  - apply reset_index_unique_sorted.
  - apply reset_index_unique_sorted.
  - intros f Hf. split; [apply fillna_ffill_ds, Hf|by apply fillna_ffill_unique_sorted].
  - apply fillna_ffill_unique_sorted, reset_index_unique_sorted.
  - apply fillna_ffill_unique_sorted, reset_index_unique_sorted.
Qed.

(** The train frame of the sample dataset. *)
Lemma frames_dates_unique_sorted_witness :
  dates_unique_sorted (train_resampled df_ok)
  ∧ ds (fillna_ffill (train_resampled df_ok)) = [Some 735962; Some 735963]
  ∧ dates_unique_sorted (fillna_ffill (train_resampled df_ok)).
Proof.
  destruct (frames_dates_unique_sorted df_ok) as (Htr & _ & Hpres & _).
  split; [exact Htr|]. destruct (Hpres _ Htr) as [Heq Hs].
  split; [rewrite Heq; reflexivity|exact Hs].
Defined.

(** C10: after the forward fill the [y] column of the train frame, and of
    the test frame, has no missing value when the first daily average of
    that frame is present; when the first daily average is missing, it stays
    missing. *)
Theorem ffill_leaves_no_missing df :
  ((∀ v, head (y (train_resampled df)) = Some (Some v) → Forall is_Some (y (train df)))
   ∧ (head (y (train_resampled df)) = Some None → head (y (train df)) = Some None))
  ∧ ((∀ v, head (y (test_resampled df)) = Some (Some v) → Forall is_Some (y (test df)))
     ∧ (head (y (test_resampled df)) = Some None → head (y (test df)) = Some None)).
Proof.
  split; (split; [intros v Hv; by apply (ffill_head_Some v)|apply ffill_head_None]).
Qed.

(** Both cases on sample datasets: a gap inside the train frame is filled, a
    missing first average is not. *)
Lemma ffill_leaves_no_missing_witness :
  y (train_resampled df_ok) = [Some (10 # 1)%Q; None]
  ∧ Forall is_Some (y (train df_ok))
  ∧ y (train_resampled df_nan) = [None; Some (5 # 1)%Q]
  ∧ head (y (train df_nan)) = Some None.
Proof.
  split_and!.
  - reflexivity.
  - destruct (ffill_leaves_no_missing df_ok) as [[H _] _].
    apply (H (10 # 1)%Q). reflexivity.
  - reflexivity.
  - destruct (ffill_leaves_no_missing df_nan) as [[_ H] _].
    apply H. reflexivity.
Defined.

(** ** The local forecast *)

Section prophet.
Import Prophet.

Lemma mapM_id_Some {A} (l : list A) : mapM id (Some <$> l) = Some l.
Proof. apply mapM_Some_2. induction l; constructor; done. Qed.

Lemma setup_dates_Some (l : list Date) : setup_dates (Some <$> l) = Ok (merge_sort Z.le l).
Proof. unfold setup_dates. by rewrite mapM_id_Some. Qed.

Lemma predict_inv m (df : list Date) fc :
  predict m df = Ok fc →
  ∃ p, params m = Some p ∧ df ≠ [] ∧ fc = (fun d => (d, p d)) <$> merge_sort Z.le df.
Proof.
  unfold predict. destruct (params m) as [p|]; [|done].
  destruct df as [|d df]; [done|]. cbn [length Nat.eqb].
  rewrite setup_dates_Some. cbn. intros [= <-]. by exists p.
Qed.

Lemma predict_ok m p (df : list Date) :
  params m = Some p → df ≠ [] →
  predict m df = Ok ((fun d => (d, p d)) <$> merge_sort Z.le df).
Proof.
  unfold predict. intros -> Hne. destruct df as [|d df]; [done|]. cbn [length Nat.eqb].
  by rewrite setup_dates_Some.
Qed.

Lemma filter_Forall_id {A} (P : A → Prop) `{!∀ x, Decision (P x)} (l : list A) :
  Forall P l → filter P l = l.
Proof.
  induction 1 as [|x l Hx _ IH]; [done|].
  rewrite filter_cons_True by done. by rewrite IH.
Qed.

Lemma filter_seqZ_after (last : Z) (n : nat) :
  filter (fun d => last < d) (seqZ last (Z.of_nat n + 1)) = seqZ (last + 1) (Z.of_nat n).
Proof.
  rewrite seqZ_cons by lia. rewrite filter_cons_False by lia.
  replace (Z.pred (Z.of_nat n + 1)) with (Z.of_nat n) by lia.
  replace (Z.succ last) with (last + 1) by lia.
  apply filter_Forall_id, Forall_seqZ. lia.
Qed.

Lemma make_future_dataframe_inv m (periods : nat) future :
  make_future_dataframe m periods = Ok future →
  ∃ d rest, history_dates m = Some (d :: rest)
            ∧ future = seqZ (max_list_Z d rest + 1) (Z.of_nat periods).
Proof.
  unfold make_future_dataframe.
  destruct (history_dates m) as [[|d rest]|]; [done| |done].
  rewrite filter_seqZ_after. intros [= <-]. exists d, rest. split; [done|].
  apply take_ge. rewrite length_seqZ. lia.
Qed.

Lemma fit_inv stan m0 df m :
  fit stan m0 df = Ok m →
  history_dates m = Some (merge_sort Z.le (remove_dups (dates df)))
  ∧ is_Some (params m) ∧ ∃ d, d ∈ dates df.
Proof.
  unfold fit. destruct (history m0); [done|].
  destruct (omap _ (rows df)) as [|[od v] rs] eqn:Hrows; [done|].
  case_match; [done|].
  unfold setup_history.
  destruct (mapM _ _) as [l|] eqn:Hl; [|done]. cbn.
  destruct (if y_min_eq_max _ _ then _ else _) as [p|]; [|done]. cbn.
  intros [= <-]. cbn. split_and!; [done|by eexists|].
  apply mapM_Some_1 in Hl. inversion Hl as [|? [d v'] ? ? Hhd _]; subst.
  destruct od as [d'|]; [|done]. exists d'.
  assert ((Some d', v) ∈ omap (fun '(d, v) => (fun v' => (d, v')) <$> v) (rows df)) as Hin
    by (rewrite Hrows; left).
  apply list_elem_of_omap in Hin as ([od ov] & Hin & Hov).
  destruct ov as [v0|]; [|done]. cbn in Hov. injection Hov as -> ->.
  apply elem_of_zip_l in Hin.
  apply list_elem_of_omap. by exists (Some d').
Qed.

(** After a successful fit the last history date bounds every date of the
    fitted frame. *)
Lemma fit_history_dates stan m0 df m :
  fit stan m0 df = Ok m →
  ∃ d rest, history_dates m = Some (d :: rest)
            ∧ ∀ x, x ∈ dates df → x ≤ max_list_Z d rest.
Proof.
  intros (Hh & _ & d0 & Hd0)%fit_inv.
  assert (∀ x, x ∈ dates df → x ∈ merge_sort Z.le (remove_dups (dates df))) as Hin.
  { intros x Hx. rewrite merge_sort_Permutation. by apply elem_of_remove_dups. }
  destruct (merge_sort Z.le (remove_dups (dates df))) as [|d rest] eqn:E.
  - specialize (Hin _ Hd0). by apply elem_of_nil in Hin.
  - exists d, rest. split; [done|]. intros x Hx.
    apply (max_list_Z_spec d rest). by apply Hin.
Qed.

Lemma fit_params stan m0 df m : fit stan m0 df = Ok m → is_Some (params m).
Proof. by intros (_ & ? & _)%fit_inv. Qed.
End prophet.

(** C8: after a successful local fit, the forecast over
    [periods = test.shape[0]] future days without history is produced
    whenever the test frame has a row; it has exactly as many rows as the test
    frame, and each of its dates lies strictly after every training date, so
    none is a training date. *)
Theorem local_forecast_rows stan df m :
  fit_local stan df = Ok m →
  (shape0 (test df) ≠ 0%nat → ∃ forecast, forecast_local m df = Ok forecast)
  ∧ (∀ forecast, forecast_local m df = Ok forecast →
       length forecast = shape0 (test df)
       ∧ ∀ d pt, (d, pt) ∈ forecast →
           (d ∉ dates (train df)) ∧ ∀ d', d' ∈ dates (train df) → d' < d).
Proof.
  unfold fit_local, forecast_local. intros Hfit.
  destruct (fit_history_dates _ _ _ _ Hfit) as (d0 & rest & Hh & Hmax).
  destruct (fit_params _ _ _ _ Hfit) as [p Hp].
  assert (Prophet.make_future_dataframe m (shape0 (test df))
          = Ok (seqZ (max_list_Z d0 rest + 1) (Z.of_nat (shape0 (test df))))) as Hfut.
  { destruct (Prophet.make_future_dataframe m (shape0 (test df))) as [future|e] eqn:E.
    - apply make_future_dataframe_inv in E as (d' & rest' & Hh' & ->).
      rewrite Hh in Hh'. by injection Hh' as <- <-.
    - unfold Prophet.make_future_dataframe in E. rewrite Hh in E. done. }
  rewrite Hfut. cbn. split.
  - intros Hne. eexists. apply predict_ok; [done|].
    intros E%(f_equal length). rewrite length_seqZ in E. cbn in E. lia.
  - intros forecast (p' & Hp' & _ & ->)%predict_inv. split.
    + rewrite length_fmap, merge_sort_Permutation, length_seqZ. lia.
    + intros d pt (x & [= -> ->] & Hx)%list_elem_of_fmap.
      rewrite merge_sort_Permutation in Hx. apply elem_of_seqZ in Hx.
      assert (∀ d, d ∈ dates (train df) → d < x) as Hlt
        by (intros d Hd%Hmax; lia).
      split; [|done]. intros Hd%Hlt. lia.
Qed.

(** The sample dataset: two training days, two forecast rows. *)
Lemma local_forecast_rows_witness :
  ∃ m forecast,
    fit_local stan_constant df_ok = Ok m
    ∧ forecast_local m df_ok = Ok forecast
    ∧ length forecast = 2%nat.
Proof.
  destruct (fit_local stan_constant df_ok) as [m|e] eqn:Hfit;
    [|vm_compute in Hfit; discriminate].
  destruct (local_forecast_rows stan_constant df_ok m Hfit) as [Hex Hall].
  destruct Hex as [forecast Hfc]; [vm_compute; discriminate|].
  exists m, forecast. split_and!; [reflexivity|exact Hfc|].
  destruct (Hall forecast Hfc) as [Hlen _]. rewrite Hlen. reflexivity.
Defined.

(** ** The endpoint *)

Section serve.
Import Serve.

Lemma record_ds row : record row !! "ds" = Some (JDate row.1).
Proof. reflexivity. Qed.

Lemma record_fields row :
  record row !! "yhat_lower" = Some (JNum (Prophet.yhat_lower row.2))
  ∧ record row !! "yhat_upper" = Some (JNum (Prophet.yhat_upper row.2))
  ∧ record row !! "yhat" = Some (JNum (Prophet.yhat row.2)).
Proof. split_and!; reflexivity. Qed.

Lemma dom_record row : dom (record row) = response_keys.
Proof. unfold record, response_keys. rewrite !dom_insert_L, dom_singleton_L. set_solver. Qed.

Lemma input_fn_prediction_request :
  input_fn prediction_request = Ok (_ymd2ord 2016 1 1, _ymd2ord 2017 2 28).
Proof. reflexivity. Qed.

Lemma dom_prediction_request : dom prediction_request = request_keys.
Proof. unfold prediction_request, request_keys. rewrite !dom_insert_L, dom_singleton_L. set_solver. Qed.

Lemma invoke_inv m request response :
  invoke m request = Ok response →
  ∃ s e p, input_fn request = Ok (s, e) ∧ Prophet.params m = Some p ∧ s ≤ e
           ∧ response = record <$> ((fun d => (d, p d)) <$> merge_sort Z.le (date_range s e)).
Proof.
  unfold invoke. destruct (input_fn request) as [[s e]|]; [|done]. cbn.
  unfold predict_fn; cbn.
  destruct (Prophet.predict m (date_range s e)) as [fc|] eqn:Hfc; [|done]. cbn.
  apply predict_inv in Hfc as (p & Hp & Hne & ->). intros [= <-].
  exists s, e, p. split_and!; try done.
  destruct (Z.le_gt_cases s e); [done|]. exfalso. apply Hne.
  unfold date_range. apply seqZ_nil. lia.
Qed.

Lemma invoke_ok m request s e p :
  input_fn request = Ok (s, e) → Prophet.params m = Some p → s ≤ e →
  invoke m request
  = Ok (record <$> ((fun d => (d, p d)) <$> merge_sort Z.le (date_range s e))).
Proof.
  intros Hin Hp Hle. unfold invoke. rewrite Hin. cbn. unfold predict_fn; cbn.
  rewrite (predict_ok m p); [done..|].
  intros E%(f_equal length). unfold date_range in E. rewrite length_seqZ in E. cbn in E. lia.
Qed.
End serve.

(** C2: for a request whose fields denote the dates [s <= e], the endpoint
    answers whenever it hosts a fitted model, and every ["ds"] of the answer
    satisfies [s <= ds <= e]. *)
Theorem response_dates_within_request m request s e :
  Serve.input_fn request = Ok (s, e) → s ≤ e →
  (is_Some (Prophet.params m) → ∃ response, Serve.invoke m request = Ok response)
  ∧ ∀ response, Serve.invoke m request = Ok response →
      ∀ o, o ∈ response → ∃ d, o !! "ds" = Some (JDate d) ∧ s ≤ d ≤ e.
Proof.
  intros Hin Hle. split.
  - intros [p Hp]. eexists. by apply invoke_ok.
  - intros response (s' & e' & p & Hin' & _ & _ & ->)%invoke_inv o Ho.
    rewrite Hin in Hin'. injection Hin' as <- <-.
    apply list_elem_of_fmap in Ho as (row & -> & (d & -> & Hd)%list_elem_of_fmap).
    exists d. split; [apply record_ds|].
    rewrite merge_sort_Permutation in Hd. unfold Serve.date_range in Hd.
    apply elem_of_seqZ in Hd. lia.
Qed.

(** The notebook's request against a fitted model. *)
Lemma response_dates_within_request_witness :
  ∃ response, Serve.invoke model_constant prediction_request = Ok response
    ∧ ∀ o, o ∈ response →
        ∃ d, o !! "ds" = Some (JDate d) ∧ _ymd2ord 2016 1 1 ≤ d ≤ _ymd2ord 2017 2 28.
Proof.
  destruct (response_dates_within_request model_constant prediction_request
              (_ymd2ord 2016 1 1) (_ymd2ord 2017 2 28) eq_refl) as [Hex Hall].
  { vm_compute. discriminate. }
  destruct Hex as [response Hr]; [by eexists|].
  exists response. split; [exact Hr|]. by apply Hall.
Defined.

(** C3: for a request whose fields denote the dates [s <= e], the answer has
    as many elements as there are days from [s] through [e]; the notebook's
    request runs from 1 January 2016 through 28 February 2017, which is 425
    days, the [prediction_periods] hyperparameter of the training job. *)
Theorem response_length_is_day_count :
  (∀ m request s e response,
     Serve.input_fn request = Ok (s, e) → s ≤ e →
     Serve.invoke m request = Ok response →
     Z.of_nat (length response) = e - s + 1)
  ∧ Serve.input_fn prediction_request = Ok (_ymd2ord 2016 1 1, _ymd2ord 2017 2 28)
  ∧ _ymd2ord 2017 2 28 - _ymd2ord 2016 1 1 + 1 = 425
  ∧ hyperparameters prophet_estimator !! "prediction_periods" = Some (HInt 425).
Proof.
  split_and!; [|reflexivity..].
  intros m request s e response Hin Hle (s' & e' & p & Hin' & _ & _ & ->)%invoke_inv.
  rewrite Hin in Hin'. injection Hin' as <- <-.
  rewrite !length_fmap, merge_sort_Permutation. unfold Serve.date_range.
  rewrite length_seqZ. lia.
Qed.

(** The notebook's request against a fitted model: 425 predictions. *)
Lemma response_length_is_day_count_witness :
  ∃ response, Serve.invoke model_constant prediction_request = Ok response
    ∧ length response = 425%nat.
Proof.
  destruct response_length_is_day_count as (Hlen & _).
  destruct (Serve.invoke model_constant prediction_request) as [response|] eqn:E.
  - exists response. split; [done|].
    pose proof (Hlen model_constant prediction_request (_ymd2ord 2016 1 1)
                  (_ymd2ord 2017 2 28) response eq_refl ltac:(vm_compute; discriminate) E) as H.
    change (_ymd2ord 2017 2 28 - _ymd2ord 2016 1 1 + 1) with 425 in H. lia.
  - exfalso. revert E. erewrite invoke_ok; [done|reflexivity|reflexivity|].
    vm_compute. discriminate.
Defined.

(** ** Failure propagation *)

Section propagation.
Context {A B : Type}.

Lemma propagates_ret (a : A) : propagates (mret a).
Proof. intros log Hlog. exact Hlog. Qed.

Lemma propagates_bind (m : M A) (f : A → M B) :
  propagates m → (∀ a, propagates (f a)) → propagates (m ≫= f).
Proof.
  intros Hm Hf log Hlog. specialize (Hm log Hlog).
  unfold mbind, M_bind. destruct (m log) as [log' [a|e]]; [|exact Hm].
  apply Hf, Hm.
Qed.

Lemma propagates_call_with name request (r : result A) :
  propagates (call_with name request r).
Proof.
  intros log Hlog. unfold call_with. destruct r as [a|e].
  - apply Forall_app. split; [done|]. by constructor.
  - by eexists log, _.
Qed.

Lemma propagates_external_with name request (r : nat → result A) :
  propagates (external_with name request r).
Proof. intros log. apply propagates_call_with. Qed.

Lemma propagates_for_each (body : A → M unit) (l : list A) :
  (∀ x, propagates (body x)) → propagates (for_each body l).
Proof.
  intros Hbody. induction l as [|x l IH]; cbn [for_each].
  - intros log Hlog. exact Hlog.
  - intros log Hlog. specialize (Hbody x log Hlog).
    unfold mbind, M_bind. destruct (body x log) as [log' [[]|e]]; [|exact Hbody].
    apply IH, Hbody.
Qed.

Context (P : entry → Prop).

Lemma logs_only_ret (a : A) : logs_only P (mret a).
Proof. intros log Hlog. exact Hlog. Qed.

Lemma logs_only_bind (m : M A) (f : A → M B) :
  logs_only P m → (∀ a, logs_only P (f a)) → logs_only P (m ≫= f).
Proof.
  intros Hm Hf log Hlog. specialize (Hm log Hlog).
  unfold mbind, M_bind. destruct (m log) as [log' [a|e]]; [|exact Hm].
  apply Hf, Hm.
Qed.

Lemma logs_only_call_with name request (r : result A) :
  P (mk_entry name request (outcome r)) → logs_only P (call_with name request r).
Proof. intros HP log Hlog. apply Forall_app. split; [done|]. by constructor. Qed.

Lemma logs_only_external_with name request (r : nat → result A) :
  (∀ t, P (mk_entry name request (outcome (r t)))) →
  logs_only P (external_with name request r).
Proof. intros HP log. apply logs_only_call_with, HP. Qed.

Lemma logs_only_for_each (body : A → M unit) (l : list A) :
  (∀ x, logs_only P (body x)) → logs_only P (for_each body l).
Proof.
  intros Hbody. induction l as [|x l IH]; cbn [for_each].
  - intros log Hlog. exact Hlog.
  - intros log Hlog. specialize (Hbody x log Hlog).
    unfold mbind, M_bind. destruct (body x log) as [log' [[]|e]]; [|exact Hbody].
    apply IH, Hbody.
Qed.
End propagation.

Ltac step_cells :=
  repeat first
    [ apply propagates_ret
    | apply propagates_call_with
    | apply propagates_external_with
    | apply propagates_for_each; intros
    | apply propagates_bind; [|intros]
    | apply logs_only_ret
    | apply logs_only_call_with; by intros ? [=]
    | apply logs_only_external_with; by intros ? ? [=]
    | apply logs_only_for_each; intros
    | apply logs_only_bind; [|intros]
    | match goal with x : (_ * _)%type |- _ => destruct x end ].

Lemma propagates_notebook w : propagates (notebook w).
Proof.
  unfold notebook, cell_3, cell_4, cell_7, cell_10, resampled, cell_11, cell_12, plot_test,
    cell_15, cell_17, cell_21, deploy_model, request_predictions, plot_predictions_cell,
    plot_test, delete_endpoint_cell, tuning_cells, cell_33, call, external.
  cbv zeta. step_cells.
Qed.

Lemma logs_only_notebook w : logs_only sends_prediction_request (notebook w).
Proof.
  unfold notebook, cell_3, cell_4, cell_7, cell_10, resampled, cell_11, cell_12, plot_test,
    cell_15, cell_17, cell_21, deploy_model, request_predictions, plot_predictions_cell,
    plot_test, delete_endpoint_cell, tuning_cells, cell_33, call, external.
  cbv zeta. step_cells.
Qed.

Example run_offline :
  run (notebook world_offline)
  = ((replicate 8 (mk_entry "import" None None)
      ++ [mk_entry "sagemaker.get_execution_role" None None;
          mk_entry "sagemaker.session.Session" None None;
          mk_entry "Session.default_bucket" None None;
          mk_entry "requests.get" None (Some ConnectionError)])%list,
     Raise ConnectionError).
Proof. reflexivity. Qed.

Example run_ok_calls :
  (run (notebook world_ok)).2 = Ok ()
  ∧ call_name <$> (run (notebook world_ok)).1 = notebook_calls
  ∧ length notebook_calls = 97%nat
  ∧ omap call_request (run (notebook world_ok)).1 = [prediction_request; prediction_request].
Proof. split_and!; vm_compute; reflexivity. Qed.

(** The timestamps the dataframe library can hold, by the hour: from
    21 September 1677, 1 o'clock, through 11 April 2262, 23 o'clock. *)
Example Timestamp_bounds :
  in_Timestamp_bounds (mk_datetime 1677 9 21 0) = false
  ∧ in_Timestamp_bounds (mk_datetime 1677 9 21 1) = true
  ∧ in_Timestamp_bounds (mk_datetime 2262 4 11 23) = true
  ∧ in_Timestamp_bounds (mk_datetime 2262 4 12 0) = false.
Proof. split_and!; reflexivity. Qed.

(** A CSV without rows, and one with dates before 1677: cell 7 returns, and
    the first [resample] of cell 10 raises. *)
Example run_without_DatetimeIndex :
  set_datetime_index [] = Ok []
  ∧ (∃ df, set_datetime_index rows_1500 = Ok df)
  ∧ ∀ w, w = world_header_only ∨ w = world_1500 →
      (run (notebook w)).2
      = Raise (TypeError
          "Only valid with DatetimeIndex, TimedeltaIndex or PeriodIndex, but got an instance of 'Index'")
      ∧ call_name <$> (run (notebook w)).1 = take 22 notebook_calls
      ∧ last (call_name <$> (run (notebook w)).1) = Some "Series.resample".
Proof.
  split_and!; [reflexivity|by eexists|].
  intros w [->| ->]; split_and!; vm_compute; reflexivity.
Qed.

(** A search without a best training job: the first subscript of cell 33
    raises. *)
Example run_no_best :
  (run (notebook world_no_best)).2 = Raise (KeyError "BestTrainingJob")
  ∧ call_name <$> (run (notebook world_no_best)).1 = take 78 notebook_calls
  ∧ getitem (PyStr "best-training-job") "TrainingJobName"
    = Raise (TypeError "string indices must be integers").
Proof. split_and!; vm_compute; reflexivity. Qed.

(** The same call returns early in the run and raises late in it: the test
    frame is plotted three times, and the third plot fails. *)
Example run_display_lost :
  (run (notebook (world_display_lost 90))).2
  = Raise (PyExc "RuntimeError" "main thread is not in main loop")
  ∧ raised <$> ((run (notebook (world_display_lost 90))).1 !! 37%nat) = Some None
  ∧ raised <$> ((run (notebook (world_display_lost 90))).1 !! 61%nat) = Some None
  ∧ (run (notebook (world_display_lost 90))).1 !! 92%nat
    = Some (mk_entry "DataFrame.plot" None
              (Some (PyExc "RuntimeError" "main thread is not in main loop")))
  ∧ length (run (notebook (world_display_lost 90))).1 = 93%nat.
Proof. split_and!; vm_compute; reflexivity. Qed.

(** The search is described in cell 32, and the same call raises in
    cell 33. *)
Example run_throttled :
  (run (notebook world_throttled)).2 = Raise ThrottlingException
  ∧ (run (notebook world_throttled)).1 !! 74%nat
    = Some (mk_entry "Session.describe_tuning_job" None None)
  ∧ (run (notebook world_throttled)).1 !! 76%nat
    = Some (mk_entry "Session.describe_tuning_job" None (Some ThrottlingException))
  ∧ length (run (notebook world_throttled)).1 = 77%nat.
Proof. split_and!; vm_compute; reflexivity. Qed.

(** Cell 10 in terms of the frames [train df] and [test df]: it raises at
    its first [resample] when the index of [df] is not a [DatetimeIndex], and
    returns the two frames after twelve calls otherwise. *)
Lemma cell_10_run df log :
  (is_DatetimeIndex df = false →
   ∃ e, (cell_10 df log).2 = Raise e
        ∧ (cell_10 df log).1
          = (log ++ [mk_entry "DataFrame.loc" None None;
                     mk_entry "Series.resample" None (Some e)])%list)
  ∧ (is_DatetimeIndex df = true →
     (cell_10 df log).2 = Ok (train df, test df)
     ∧ ∃ k, (cell_10 df log).1 = (log ++ k)%list ∧ length k = 12%nat
            ∧ Forall ok_entry k).
Proof.
  unfold cell_10, resampled, call, call_with, resample, mbind, M_bind, mret, M_ret.
  split; intros ->; cbn.
  - eexists. split; [reflexivity|]. by rewrite <- app_assoc.
  - split; [reflexivity|]. eexists. rewrite <- !app_assoc. split; [reflexivity|].
    split; [reflexivity|]. repeat constructor.
Qed.

(** A handler would break propagation: the call raises, the computation
    returns. *)
Example try_except_recovers :
  run (try_except (call "requests.get" (Raise ConnectionError)) (fun _ => mret "offline"))
  = ([mk_entry "requests.get" None (Some ConnectionError)], Ok "offline").
Proof. reflexivity. Qed.



(** C5: every request the notebook sends to the endpoint has exactly the
    keys ["start"] and ["end"], each holding a date; every element of an
    answer has exactly the keys ["ds"], ["yhat_lower"], ["yhat_upper"] and
    ["yhat"], a date and three numbers. *)
Theorem request_and_response_shape :
  (∀ w en request,
     en ∈ (run (notebook w)).1 → call_request en = Some request →
     dom request = request_keys
     ∧ ∃ s e ds de,
         request !! "start" = Some (JStr s) ∧ Serve.to_datetime s = Ok ds
         ∧ request !! "end" = Some (JStr e) ∧ Serve.to_datetime e = Ok de)
  ∧ (∀ m request response o,
       Serve.invoke m request = Ok response → o ∈ response →
       dom o = response_keys
       ∧ (∃ d, o !! "ds" = Some (JDate d))
       ∧ (∃ q, o !! "yhat_lower" = Some (JNum q))
       ∧ (∃ q, o !! "yhat_upper" = Some (JNum q))
       ∧ (∃ q, o !! "yhat" = Some (JNum q))).
Proof.
  split.
  - intros w en request Hen Hreq.
    pose proof (logs_only_notebook w [] (Forall_nil_2 _)) as H.
    rewrite Forall_forall in H. rewrite (H _ Hen _ Hreq).
    split; [apply dom_prediction_request|].
    exists "1-1-2016", "2-28-2017", (_ymd2ord 2016 1 1), (_ymd2ord 2017 2 28).
    split_and!; reflexivity.
  - intros m request response o (s & e & p & _ & _ & _ & ->)%invoke_inv Ho.
    apply list_elem_of_fmap in Ho as (row & -> & _).
    destruct (record_fields row) as (Hl & Hu & Hy).
    split_and!; [apply dom_record|eexists; apply record_ds|by eexists..].
Qed.

(** The request of cells 22 and 34, and the answer of a fitted model to it. *)
Lemma request_and_response_shape_witness :
  dom prediction_request = request_keys
  ∧ ∃ response, Serve.invoke model_constant prediction_request = Ok response
      ∧ ∀ o, o ∈ response → dom o = response_keys.
Proof.
  destruct request_and_response_shape as [Hreq Hresp]. split.
  - refine (proj1 (Hreq world_ok (mk_entry "Predictor.predict" (Some prediction_request) None)
                     prediction_request _ eq_refl)).
    apply (list_elem_of_lookup_2 _ 55%nat). vm_compute. reflexivity.
  - destruct (Serve.invoke model_constant prediction_request) as [response|] eqn:E.
    + exists response. split; [done|]. intros o Ho.
      exact (proj1 (Hresp model_constant prediction_request response o E Ho)).
    + exfalso. revert E. erewrite invoke_ok; [done|reflexivity|reflexivity|].
      vm_compute. discriminate.
Defined.


(** The object-storage keys of the two uploads (cell 15). *)
Example upload_keys :
  upload_key "train" = "air-quality-prophet/train.csv"
  ∧ upload_key "test" = "air-quality-prophet/test.csv".
Proof. split; reflexivity. Qed.

(** * Further properties of the notebook *)

Lemma index_of_row_Ok x t : index_of_row x = Ok t ↔ valid_row x ∧ t = (index_entry x).1.
Proof.
  unfold index_of_row, valid_row, index_entry. rewrite new_datetime_ok. cbn. tauto.
Qed.

Lemma index_of_row_valid x : valid_row x → index_of_row x = Ok (index_entry x).1.
Proof. intros H. by apply index_of_row_Ok. Qed.

Lemma set_datetime_index_valid rows :
  Forall valid_row rows → set_datetime_index rows = Ok (index_entry <$> rows).
Proof.
  unfold set_datetime_index.
  induction 1 as [|x rows Hx _ IH]; [done|].
  cbn. rewrite (index_of_row_valid x Hx). cbn. by rewrite IH.
Qed.

Lemma set_datetime_index_first_invalid good x rest e :
  Forall valid_row good → index_of_row x = Raise e →
  set_datetime_index (good ++ x :: rest) = Raise e.
Proof.
  unfold set_datetime_index. intros Hgood Hx.
  induction Hgood as [|g good Hg _ IH]; cbn.
  - by rewrite Hx.
  - rewrite (index_of_row_valid g Hg). cbn. by rewrite IH.
Qed.

Lemma as_c_int_Raise v e :
  _as_c_int v = Raise e → ¬ (- 2 ^ 31 ≤ v < 2 ^ 31) ∧ ∃ msg, e = OverflowError msg.
Proof.
  unfold _as_c_int.
  destruct (Z.leb_spec (- 2 ^ 63) v), (Z.ltb_spec v (2 ^ 63)), (Z.leb_spec (2 ^ 31) v),
    (Z.ltb_spec v (- 2 ^ 31)); cbn [negb andb]; intros [= <-]; (split; [lia|by eexists]).
Qed.

Lemma check_date_fields_Raise yr m d e :
  _check_date_fields yr m d = Raise e → ∃ msg, e = ValueError msg.
Proof.
  unfold _check_date_fields.
  repeat (case_match; [intros [= <-]; by eexists|]). done.
Qed.

Lemma check_hour_Raise h e : _check_hour h = Raise e → ∃ msg, e = ValueError msg.
Proof. unfold _check_hour. case_match; [intros [= <-]; by eexists|done]. Qed.

(** A row that is rejected: for a field beyond a C [int] with
    [OverflowError], else with [ValueError]. *)
Lemma index_of_row_Raise x e :
  index_of_row x = Raise e →
  (fits_c_int x → ∃ msg, e = ValueError msg)
  ∧ (¬ fits_c_int x → ∃ msg, e = OverflowError msg).
Proof.
  unfold index_of_row, new_datetime, fits_c_int.
  destruct (_as_c_int (year x)) as [yr|] eqn:Hy; cbn;
    [apply as_c_int_ok in Hy as [-> Hy]
    |intros [= <-]; apply as_c_int_Raise in Hy as [? ?]; split; [tauto|done]].
  destruct (_as_c_int (month x)) as [mo|] eqn:Hm; cbn;
    [apply as_c_int_ok in Hm as [-> Hm]
    |intros [= <-]; apply as_c_int_Raise in Hm as [? ?]; split; [tauto|done]].
  destruct (_as_c_int (day x)) as [dy|] eqn:Hd; cbn;
    [apply as_c_int_ok in Hd as [-> Hd]
    |intros [= <-]; apply as_c_int_Raise in Hd as [? ?]; split; [tauto|done]].
  destruct (_as_c_int (hour x)) as [hr|] eqn:Hh; cbn;
    [apply as_c_int_ok in Hh as [-> Hh]
    |intros [= <-]; apply as_c_int_Raise in Hh as [? ?]; split; [tauto|done]].
  destruct (_check_date_fields (year x) (month x) (day x)) as [[]|e1] eqn:Hdate; cbn.
  - destruct (_check_hour (hour x)) as [[]|e2] eqn:Hhour; cbn; [done|].
    intros [= <-]. split; [intros _; by eapply check_hour_Raise|tauto].
  - intros [= <-]. split; [intros _; by eapply check_date_fields_Raise|tauto].
Qed.

(** X1: the index assignment of cell 7 succeeds exactly when every row holds
    the calendar fields of a real hour; it then pairs each row, in order,
    with the timestamp of its own columns.  Otherwise it raises the error of
    the first invalid row, whatever follows that row: [OverflowError] when a
    field of that row does not fit a C [int], and [ValueError] when all four
    fit. *)
Theorem set_datetime_index_spec rows :
  (Forall valid_row rows → set_datetime_index rows = Ok (index_entry <$> rows))
  ∧ (∀ df, set_datetime_index rows = Ok df →
           Forall valid_row rows ∧ df = index_entry <$> rows)
  ∧ (∀ good x rest e,
       rows = (good ++ x :: rest)%list → Forall valid_row good →
       index_of_row x = Raise e →
       set_datetime_index rows = Raise e
       ∧ (fits_c_int x → ∃ msg, e = ValueError msg)
       ∧ (¬ fits_c_int x → ∃ msg, e = OverflowError msg)).
Proof.
  split_and!.
  - apply set_datetime_index_valid.
  - intros df Hdf.
    assert (Forall valid_row rows) as Hv.
    { destruct (set_datetime_index_elem _ _ Hdf) as [Hrows Hwf].
      apply Forall_forall. intros x Hx. rewrite <- Hrows in Hx.
      apply list_elem_of_fmap in Hx as ([t x'] & -> & Hin).
      specialize (Hwf _ Hin). by apply index_of_row_Ok in Hwf as [? _]. }
    split; [done|]. rewrite (set_datetime_index_valid _ Hv) in Hdf. congruence.
  - intros good x rest e -> Hgood Hx.
    split; [by apply set_datetime_index_first_invalid|].
    by apply index_of_row_Raise.
Qed.

Lemma set_datetime_index_spec_witness :
  set_datetime_index rows_ok = Ok (index_entry <$> rows_ok)
  ∧ Forall valid_row rows_ok
  ∧ set_datetime_index rows_bad = Raise (ValueError "day is out of range for month")
  ∧ set_datetime_index rows_huge
    = Raise (OverflowError "signed integer is greater than maximum").
Proof.
  destruct (set_datetime_index_spec rows_ok) as (Hok & Hinv & _).
  destruct (Hinv df_ok eq_refl) as [Hv _].
  split; [exact (Hok Hv)|]. split; [exact Hv|].
  assert (Forall valid_row [mk_Row 2015 12 30 5 (Some (10 # 1)%Q)]) as Hgood.
  { constructor; [|constructor]. unfold valid_row; cbn. vm_compute. intuition discriminate. }
  split.
  - destruct (set_datetime_index_spec rows_bad) as (_ & _ & Hbad).
    exact (proj1 (Hbad [mk_Row 2015 12 30 5 (Some (10 # 1)%Q)] (mk_Row 2015 2 30 0 None)
                    [mk_Row 0 1 1 0 None] _ eq_refl Hgood eq_refl)).
  - destruct (set_datetime_index_spec rows_huge) as (_ & _ & Hbad).
    exact (proj1 (Hbad [mk_Row 2015 12 30 5 (Some (10 # 1)%Q)] (mk_Row 2147483648 1 1 0 None)
                    [] _ eq_refl Hgood eq_refl)).
Defined.

Lemma length_ffill_from {A} (last : option A) col : length (ffill_from last col) = length col.
Proof. revert last. induction col as [|c col IH]; intros last; cbn; [done|]. by rewrite IH. Qed.

Lemma ffill_from_lookup_0 {A} (last : option A) col c :
  col !! 0%nat = Some c →
  ffill_from last col !! 0%nat = Some (match c with Some _ => c | None => last end).
Proof. destruct col; [done|]. by intros [= ->]. Qed.

(** The cell below a filled cell: its own value when present, else the
    filled value above. *)
Lemma ffill_from_lookup_S {A} (last : option A) col i c :
  col !! S i = Some c →
  ∃ above, ffill_from last col !! i = Some above
           ∧ ffill_from last col !! S i
             = Some (match c with Some _ => c | None => above end).
Proof.
  revert last col. induction i as [|i IH]; intros last col Hc.
  - destruct col as [|c0 [|c1 col]]; try done. injection Hc as ->.
    eexists. split; reflexivity.
  - destruct col as [|c0 col]; [done|]. cbn in Hc.
    destruct (IH (match c0 with Some _ => c0 | None => last end) col Hc) as (above & H1 & H2).
    exists above. split; [exact H1|exact H2].
Qed.

Lemma ffill_from_idemp {A} (last : option A) col :
  ffill_from last (ffill_from last col) = ffill_from last col.
Proof.
  revert last. induction col as [|c col IH]; intros last; cbn; [done|].
  destruct c as [a|]; cbn.
  - by rewrite IH.
  - destruct last as [b|]; cbn.
    + f_equal. apply IH.
    + f_equal. apply IH.
Qed.

(** What stays missing after the fill is what was missing from the top. *)
Lemma ffill_from_None_prefix {A} (col : list (option A)) i :
  ffill_from None col !! i = Some None ↔
  (i < length col)%nat ∧ ∀ j, (j ≤ i)%nat → col !! j = Some None.
Proof.
  revert i. induction col as [|c col IH]; intros i; cbn.
  - split; [done|]. intros [? _]. lia.
  - destruct c as [a|].
    + split.
      * destruct i as [|i]; cbn; [done|].
        intros Hi. exfalso.
        assert (Forall is_Some (ffill_from (Some a) col)) as HF
          by (apply ffill_from_Some_last; by eexists).
        rewrite Forall_lookup in HF. by destruct (HF _ _ Hi).
      * intros [_ H]. specialize (H 0%nat ltac:(lia)). done.
    + destruct i as [|i]; cbn.
      * split; [|done]. intros _. split; [lia|]. intros j Hj.
        by replace j with 0%nat by lia.
      * rewrite IH. split.
        -- intros [Hlt H]. split; [lia|]. intros [|j] Hj; [done|]. cbn. apply H. lia.
        -- intros [Hlt H]. split; [lia|]. intros j Hj. apply (H (S j)). lia.
Qed.

(** X4: the forward fill of cell 10 keeps the number of rows and every value
    that is present, gives a missing cell the filled value of the row
    above, and filling twice is filling once. *)
Theorem fillna_ffill_cells (f : Frame) :
  length (y (fillna_ffill f)) = length (y f)
  ∧ (∀ i v, y f !! i = Some (Some v) → y (fillna_ffill f) !! i = Some (Some v))
  ∧ (∀ i, y f !! S i = Some None → y (fillna_ffill f) !! S i = y (fillna_ffill f) !! i)
  ∧ fillna_ffill (fillna_ffill f) = fillna_ffill f.
Proof.
  unfold fillna_ffill, ffill; cbn. split_and!.
  - apply length_ffill_from.
  - intros [|i] v Hv.
    + by rewrite (ffill_from_lookup_0 _ _ _ Hv).
    + destruct (ffill_from_lookup_S None _ _ _ Hv) as (above & _ & ->). done.
  - intros i Hi.
    destruct (ffill_from_lookup_S None _ _ _ Hi) as (above & -> & ->). done.
  - by rewrite !ffill_from_idemp.
Qed.

Lemma fillna_ffill_cells_witness :
  y (fillna_ffill frame_gaps) = [None; None; Some (3 # 1)%Q; Some (3 # 1)%Q; Some (5 # 1)%Q]
  ∧ y (fillna_ffill frame_gaps) !! 2%nat = Some (Some (3 # 1)%Q)
  ∧ y (fillna_ffill frame_gaps) !! 3%nat = y (fillna_ffill frame_gaps) !! 2%nat.
Proof.
  destruct (fillna_ffill_cells frame_gaps) as (_ & Hkeep & Hfill & _).
  split; [reflexivity|]. split.
  - apply Hkeep. reflexivity.
  - apply Hfill. reflexivity.
Defined.

(** X5: after the forward fill a cell of [y] is missing exactly when it and
    every cell above it were missing before: what stays missing is a
    leading block. *)
Theorem fillna_ffill_missing_is_leading (f : Frame) (i : nat) :
  y (fillna_ffill f) !! i = Some None ↔
  (i < length (y f))%nat ∧ ∀ j, (j ≤ i)%nat → y f !! j = Some None.
Proof. unfold fillna_ffill, ffill; cbn. apply ffill_from_None_prefix. Qed.

Lemma fillna_ffill_missing_is_leading_witness :
  y (fillna_ffill frame_gaps) !! 1%nat = Some None
  ∧ y frame_gaps !! 0%nat = Some None.
Proof.
  split.
  - apply fillna_ffill_missing_is_leading. split; [cbn; lia|].
    intros [|[|j]] Hj; [reflexivity|reflexivity|lia].
  - apply (proj1 (fillna_ffill_missing_is_leading frame_gaps 1) eq_refl). lia.
Defined.

Lemma seqZ_daily m n :
  (∀ i d d', seqZ m n !! i = Some d → seqZ m n !! S i = Some d' → d' = d + 1)
  ∧ (∀ first final, head (seqZ m n) = Some first → last (seqZ m n) = Some final →
       Z.of_nat (length (seqZ m n)) = final - first + 1).
Proof.
  split.
  - intros i d d' [-> ?]%lookup_seqZ [-> ?]%lookup_seqZ. lia.
  - intros first final. rewrite head_lookup, last_lookup, length_seqZ.
    intros [-> ?]%lookup_seqZ [-> ?]%lookup_seqZ. lia.
Qed.

Lemma resampled_frame_daily s :
  daily_frame (fillna_ffill (reset_index_rename (resample_1D_mean s))).
Proof.
  unfold daily_frame, shape0.
  rewrite dates_fillna_reset_index, ds_fillna_reset_index.
  unfold fillna_ffill, ffill; cbn. rewrite length_ffill_from, !length_fmap.
  split; [done|]. rewrite <- (length_fmap fst), resample_index_eq.
  destruct (day_bounds s) as [[lo hi]|].
  - apply seqZ_daily.
  - split; [intros i d d' Hd; by rewrite lookup_nil in Hd|by intros first final [=]].
Qed.

(** X2: in the train and the test frame both columns have one cell per row,
    each row is the calendar day after the row above, and the number of
    rows is the last date minus the first plus one, days without any
    record included. *)
Theorem daily_frames_shape df : daily_frame (train df) ∧ daily_frame (test df).
Proof. split; apply resampled_frame_daily. Qed.

Lemma daily_frames_shape_witness :
  dates (train df_sparse) = [735961; 735962; 735963]
  ∧ Z.of_nat (shape0 (train df_sparse)) = 735963 - 735961 + 1.
Proof.
  split; [reflexivity|].
  destruct (daily_frames_shape df_sparse) as [(_ & _ & Hcount) _].
  apply Hcount; reflexivity.
Defined.

Lemma mean_is_Some vs : is_Some (mean vs) ↔ vs ≠ [].
Proof.
  destruct vs as [|v vs]; cbn.
  - split; [by intros [? ?]|done].
  - split; [done|by eexists].
Qed.

Lemma day_values_nonempty s d :
  day_values s d ≠ [] ↔ ∃ p, p ∈ s ∧ toordinal p.1 = d ∧ is_Some p.2.
Proof.
  unfold day_values. split.
  - destruct (omap snd _) as [|v vs] eqn:E; [done|]. intros _.
    assert (v ∈ omap snd (filter (fun p => toordinal p.1 = d) s)) as Hv by (rewrite E; left).
    apply list_elem_of_omap in Hv as (p & [Hd Hp]%list_elem_of_filter & Hs).
    exists p. split_and!; [done..|by eexists].
  - intros (p & Hp & Hd & [v Hv]) E.
    assert (v ∈ omap snd (filter (fun p => toordinal p.1 = d) s)) as Hin.
    { apply list_elem_of_omap. exists p. split; [by apply list_elem_of_filter|done]. }
    rewrite E in Hin. by apply elem_of_nil in Hin.
Qed.

Lemma resample_cell s d v :
  (d, v) ∈ resample_1D_mean s →
  (is_Some v ↔ ∃ p, p ∈ s ∧ toordinal p.1 = d ∧ is_Some p.2).
Proof.
  unfold resample_1D_mean. destruct (day_bounds s) as [[lo hi]|]; [|by intros ?%elem_of_nil].
  intros (d' & [= -> ->] & _)%list_elem_of_fmap.
  by rewrite mean_is_Some, day_values_nonempty.
Qed.

Lemma rows_reset_index r :
  zip (dates (reset_index_rename r)) (y (reset_index_rename r)) = r.
Proof.
  unfold dates. rewrite ds_reset_index, omap_id_Some. cbn. apply zip_fst_snd.
Qed.

Lemma resampled_cell_present mask df d v :
  (d, v) ∈ zip (dates (reset_index_rename (resample_1D_mean (loc_PM2_5 mask df))))
               (y (reset_index_rename (resample_1D_mean (loc_PM2_5 mask df)))) →
  (is_Some v ↔
   ∃ t x, (t, x) ∈ df ∧ mask x = true ∧ toordinal t = d ∧ is_Some (PM2_5 x)).
Proof.
  rewrite rows_reset_index. intros ->%resample_cell. split.
  - intros ([t v'] & (x & Hin & Hm & Hv)%elem_of_loc & Hd & Hs). cbn in *.
    exists t, x. rewrite <- Hv. done.
  - intros (t & x & Hin & Hm & Hd & Hs). exists (t, PM2_5 x).
    split; [|done]. apply elem_of_loc. by exists x.
Qed.

(** X3: before the fill, the daily average of a day is present exactly when
    the dataset has, on that side of the split, a record of that day with a
    reading. *)
Theorem daily_average_present df d v :
  ((d, v) ∈ zip (dates (train_resampled df)) (y (train_resampled df)) →
   (is_Some v ↔
    ∃ t x, (t, x) ∈ df ∧ year x < 2016 ∧ toordinal t = d ∧ is_Some (PM2_5 x)))
  ∧ ((d, v) ∈ zip (dates (test_resampled df)) (y (test_resampled df)) →
     (is_Some v ↔
      ∃ t x, (t, x) ∈ df ∧ 2016 ≤ year x ∧ toordinal t = d ∧ is_Some (PM2_5 x))).
Proof.
  split; intros ->%resampled_cell_present; unfold is_train, is_test;
    split; intros (t & x & Hin & Hm & H); exists t, x; (split; [done|]); (split; [|done]).
  - by apply Z.ltb_lt.
  - by apply Z.ltb_lt.
  - by apply Z.leb_le.
  - by apply Z.leb_le.
Qed.

Lemma daily_average_present_witness :
  zip (dates (train_resampled df_sparse)) (y (train_resampled df_sparse))
  = [(735961, Some (7 # 1)%Q); (735962, None); (735963, None)]
  ∧ ∃ t x, (t, x) ∈ df_sparse ∧ year x < 2016 ∧ toordinal t = 735961 ∧ is_Some (PM2_5 x).
Proof.
  split; [reflexivity|].
  destruct (daily_average_present df_sparse 735961 (Some (7 # 1)%Q)) as [H _].
  apply H; [left|by eexists].
Defined.

(** X6: every date of the train frame is at most 31 December 2015, and
    every date of the test frame is at least 1 January 2016; either bound
    holds whatever the other frame contains. *)
Theorem train_precedes_test rows df :
  set_datetime_index rows = Ok df →
  (∀ d, d ∈ dates (train df) → d ≤ _ymd2ord 2015 12 31)
  ∧ (∀ d, d ∈ dates (test df) → _ymd2ord 2016 1 1 ≤ d).
Proof.
  intros Hidx. split.
  - intros d Hd%(train_dates_before _ _ Hidx).
    change (_ymd2ord 2015 12 31) with (split_day - 1). lia.
  - intros d Hd%(test_dates_from _ _ Hidx). exact Hd.
Qed.

(** A dataset without test rows still has its train dates bounded; the
    sample dataset has both bounds. *)
Lemma train_precedes_test_witness :
  dates (test df_past) = []
  ∧ 735963 ≤ _ymd2ord 2015 12 31
  ∧ _ymd2ord 2016 1 1 ≤ 735964.
Proof.
  split; [reflexivity|]. split.
  - apply (proj1 (train_precedes_test [mk_Row 2015 12 30 5 (Some (10 # 1)%Q);
                                        mk_Row 2015 12 31 23 (Some (12 # 1)%Q)]
                    df_past eq_refl)).
    change (dates (train df_past)) with [735962; 735963]. right; left.
  - apply (proj2 (train_precedes_test rows_ok df_ok eq_refl)).
    change (dates (test df_ok)) with [735964; 735965]. left.
Defined.

Section prophet_fit.
Import Prophet.

Lemma notnull_rows (l : list Date) (col : list (option Q)) :
  length l = length col →
  ∃ k : list (Date * Q),
    omap (fun '(d, v) => (fun v' => (d, v')) <$> v) (zip (Some <$> l) col)
    = (fun r => (Some r.1, r.2)) <$> k
    ∧ k.*2 = omap id col.
Proof.
  revert col. induction l as [|d l IH]; intros [|c col] Hlen; try done.
  - by exists [].
  - destruct (IH col ltac:(cbn in Hlen; lia)) as (k & Hk & Hvals).
    destruct c as [v|]; cbn.
    + exists ((d, v) :: k). cbn. by rewrite Hk, Hvals.
    + by exists k.
Qed.

Lemma setup_history_Some (k : list (Date * Q)) :
  setup_history ((fun r => (Some r.1, r.2)) <$> k) = Ok (merge_sort by_date k).
Proof.
  unfold setup_history.
  assert (mapM (fun '(d, v) => (fun d' : Z => (d', v)) <$> d)
            ((fun r : Z * Q => (Some r.1, r.2)) <$> k) = Some k) as ->; [|done].
  apply mapM_Some_2. induction k as [|[d v] k IH]; constructor; done.
Qed.

Lemma fit_new_spec stan (l : list Date) (col : list (option Q)) :
  length l = length col →
  let n := length (omap id col) in
  ((n < 2)%nat →
   fit stan new (mk_Frame (Some <$> l) col)
   = Raise (ValueError "Dataframe has less than 2 non-NaN rows."))
  ∧ ((2 ≤ n)%nat →
     ∃ h, h.*2 ≡ₚ omap id col
          ∧ (y_min_eq_max stan h = true →
             ∃ m, fit stan new (mk_Frame (Some <$> l) col) = Ok m
                  ∧ params m = Some (stan_init stan h))
          ∧ (y_min_eq_max stan h = false →
             (∀ e, optimizing stan h = Raise e →
                   fit stan new (mk_Frame (Some <$> l) col) = Raise e)
             ∧ (∀ p, optimizing stan h = Ok p →
                     ∃ m, fit stan new (mk_Frame (Some <$> l) col) = Ok m
                          ∧ params m = Some p))).
Proof.
  intros Hlen n. unfold fit, rows; cbn.
  destruct (notnull_rows l col Hlen) as (k & -> & Hk).
  assert (length k = n) as Hn' by (by rewrite <- (length_fmap snd), Hk).
  rewrite length_fmap, Hn'. split.
  - intros Hn. destruct (Nat.leb_spec n 1); [done|lia].
  - intros Hn. destruct (Nat.leb_spec n 1); [lia|].
    rewrite setup_history_Some. cbn.
    exists (merge_sort by_date k).
    split; [by rewrite merge_sort_Permutation, Hk|].
    split.
    + intros ->. cbn. by eexists.
    + intros ->. split.
      * by intros e ->.
      * intros p ->. cbn. by eexists.
Qed.
End prophet_fit.



Lemma StronglySorted_le_seqZ m n : StronglySorted Z.le (seqZ m n).
Proof.
  remember (Z.to_nat n) as k eqn:Hk. revert m n Hk.
  induction k as [|k IH]; intros m n Hk.
  - rewrite seqZ_nil by lia. constructor.
  - rewrite seqZ_cons by lia. constructor.
    + apply IH. lia.
    + apply Forall_seqZ. lia.
Qed.

Lemma merge_sort_seqZ m n : merge_sort Z.le (seqZ m n) = seqZ m n.
Proof.
  apply (StronglySorted_unique Z.le).
  - apply StronglySorted_merge_sort; apply _.
  - apply StronglySorted_le_seqZ.
  - apply merge_sort_Permutation.
Qed.

Lemma seqZ_inj_start a b n : 0 < n → seqZ a n = seqZ b n → a = b.
Proof. intros Hn. rewrite !(seqZ_cons _ n) by done. by intros [= ->]. Qed.

Lemma dates_resampled_seqZ s :
  let f := fillna_ffill (reset_index_rename (resample_1D_mean s)) in
  shape0 f = 0%nat ∧ dates f = []
  ∨ ∃ first, head (dates f) = Some first ∧ dates f = seqZ first (Z.of_nat (shape0 f)).
Proof.
  cbn zeta. unfold shape0. rewrite ds_fillna_reset_index, dates_fillna_reset_index.
  rewrite length_fmap, resample_index_eq.
  destruct (day_bounds s) as [[lo hi]|] eqn:E; [|by left].
  right. exists lo.
  destruct (day_bounds_Some _ _ _ E) as ((p & Hp & <-) & (q & Hq & <-) & Hall).
  pose proof (Hall _ Hq). rewrite length_seqZ.
  rewrite Z2Nat.id by lia. split; [|done].
  rewrite seqZ_cons by lia. done.
Qed.

Lemma forecast_dates_and_test_dates stan df m forecast :
  fit_local stan df = Ok m → forecast_local m df = Ok forecast →
  ∃ final first,
    final ∈ dates (train df) ∧ (∀ d, d ∈ dates (train df) → d ≤ final)
    ∧ head (dates (test df)) = Some first
    ∧ forecast.*1 = seqZ (final + 1) (Z.of_nat (shape0 (test df)))
    ∧ dates (test df) = seqZ first (Z.of_nat (shape0 (test df)))
    ∧ (forecast.*1 = dates (test df) ↔ first = final + 1).
Proof.
  unfold fit_local, forecast_local. intros Hfit Hfc.
  destruct (fit_history_dates _ _ _ _ Hfit) as (d0 & rest & Hh & Hmax).
  destruct (fit_inv _ _ _ _ Hfit) as (Hh' & _ & _). rewrite Hh in Hh'.
  injection Hh' as Hsorted.
  assert (max_list_Z d0 rest ∈ dates (train df)) as Hin.
  { pose proof (proj1 (max_list_Z_spec d0 rest)) as H. rewrite Hsorted in H.
    rewrite merge_sort_Permutation in H. by apply elem_of_remove_dups. }
  destruct (Prophet.make_future_dataframe m (shape0 (test df))) as [future|] eqn:Hfut;
    [|done].
  change (Prophet.predict m future = Ok forecast) in Hfc.
  apply make_future_dataframe_inv in Hfut as (d1 & rest1 & Hh1 & ->).
  rewrite Hh in Hh1. injection Hh1 as <- <-.
  apply predict_inv in Hfc as (p & _ & Hne & ->).
  rewrite fmap_fst_graph, merge_sort_seqZ.
  assert (shape0 (test df) ≠ 0%nat) as Hpos.
  { intros E. apply Hne. rewrite E. by apply seqZ_nil. }
  destruct (dates_resampled_seqZ (loc_PM2_5 is_test df)) as [[E _]|(first & Hhd & Hd)];
    [done|].
  exists (max_list_Z d0 rest), first. split_and!; try done.
  fold (test_resampled df) in Hd. fold (test df) in Hd. rewrite Hd. split.
  - intros E. symmetry. eapply seqZ_inj_start; [|exact E]. lia.
  - by intros ->.
Qed.

(** X8: the dates of the local forecast of cell 12 are the [test.shape[0]]
    consecutive days after the last training date; the test dates are as
    many consecutive days from the first test date; the two coincide
    exactly when the test frame starts the day after the train frame
    ends. *)
Theorem local_forecast_dates stan df m forecast :
  fit_local stan df = Ok m → forecast_local m df = Ok forecast →
  ∃ final first,
    final ∈ dates (train df) ∧ (∀ d, d ∈ dates (train df) → d ≤ final)
    ∧ head (dates (test df)) = Some first
    ∧ forecast.*1 = seqZ (final + 1) (Z.of_nat (shape0 (test df)))
    ∧ dates (test df) = seqZ first (Z.of_nat (shape0 (test df)))
    ∧ (forecast.*1 = dates (test df) ↔ first = final + 1).
Proof. apply forecast_dates_and_test_dates. Qed.

(** X9: when the dataset has a record on 31 December 2015 and on 1 January
    2016, the local forecast is made for exactly the dates of the test
    frame it is plotted against. *)
Theorem local_forecast_aligned rows stan df m forecast :
  set_datetime_index rows = Ok df →
  records_on df (_ymd2ord 2015 12 31) → records_on df (_ymd2ord 2016 1 1) →
  fit_local stan df = Ok m → forecast_local m df = Ok forecast →
  forecast.*1 = dates (test df).
Proof.
  intros Hidx (a & Ha & Hda) (b & Hb & Hdb) Hfit Hfc.
  destruct (forecast_dates_and_test_dates _ _ _ _ Hfit Hfc)
    as (final & first & Hin & Hmax & Hhd & _ & Htest & Hiff).
  apply Hiff.
  destruct (record_side _ _ Hidx _ Ha) as [(_ & _ & Ha')|(Hge & _)];
    [|rewrite Hda in Hge; vm_compute in Hge; done].
  destruct (record_side _ _ Hidx _ Hb) as [(Hlt & _)|(_ & _ & Hb')];
    [rewrite Hdb in Hlt; vm_compute in Hlt; done|].
  assert (_ymd2ord 2015 12 31 ∈ dates (train df)) as Hlast.
  { rewrite dates_train. apply elem_of_resample_index.
    eexists _, _. split_and!; [exact Ha'|exact Ha'|cbn; lia|cbn; lia]. }
  assert (_ymd2ord 2016 1 1 ∈ dates (test df)) as Hfirst.
  { rewrite dates_test. apply elem_of_resample_index.
    eexists _, _. split_and!; [exact Hb'|exact Hb'|cbn; lia|cbn; lia]. }
  pose proof (train_dates_before _ _ Hidx _ Hin) as H1.
  pose proof (Hmax _ Hlast) as H2.
  assert (first ∈ dates (test df)) as Hf.
  { destruct (dates (test df)); [done|]. injection Hhd as ->. left. }
  pose proof (test_dates_from _ _ Hidx _ Hf) as H3.
  rewrite Htest in Hfirst. apply elem_of_seqZ in Hfirst.
  unfold split_day in *. change (_ymd2ord 2015 12 31) with (_ymd2ord 2016 1 1 - 1) in H2.
  lia.
Qed.

Lemma local_forecast_dates_witness :
  fit_local stan_constant df_ok = Ok model_ok
  ∧ forecast_local model_ok df_ok = Ok forecast_ok
  ∧ forecast_ok.*1 = seqZ (735963 + 1) 2.
Proof.
  assert (fit_local stan_constant df_ok = Ok model_ok) as Hfit by reflexivity.
  assert (forecast_local model_ok df_ok = Ok forecast_ok) as Hfc by reflexivity.
  split_and!; [exact Hfit|exact Hfc|].
  destruct (local_forecast_dates _ _ _ _ Hfit Hfc)
    as (final & first & Hin & Hmax & Hhd & Hdates & _ & _).
  change (dates (train df_ok)) with [735962; 735963] in Hin, Hmax.
  pose proof (Hmax 735963 ltac:(right; left)).
  rewrite !elem_of_cons, elem_of_nil in Hin.
  assert (final = 735963) as -> by (destruct Hin as [->|[->|[]]]; lia).
  exact Hdates.
Defined.

Lemma local_forecast_aligned_witness :
  records_on df_ok (_ymd2ord 2015 12 31) ∧ records_on df_ok (_ymd2ord 2016 1 1)
  ∧ forecast_ok.*1 = dates (test df_ok).
Proof.
  assert (records_on df_ok (_ymd2ord 2015 12 31)) as Ha.
  { exists (mk_datetime 2015 12 31 23, mk_Row 2015 12 31 23 None).
    split; [right; left|reflexivity]. }
  assert (records_on df_ok (_ymd2ord 2016 1 1)) as Hb.
  { exists (mk_datetime 2016 1 1 0, mk_Row 2016 1 1 0 (Some (20 # 1)%Q)).
    split; [right; right; left|reflexivity]. }
  split; [exact Ha|]. split; [exact Hb|].
  exact (local_forecast_aligned rows_ok stan_constant df_ok model_ok forecast_ok
           eq_refl Ha Hb eq_refl eq_refl).
Defined.

Section emits.
Context {A B : Type}.

Lemma emits_ret (a : A) : emits [] (mret a).
Proof. intros log. exists []. cbn. rewrite app_nil_r. done. Qed.

Lemma emits_call_with name request (r : result A) : emits [name] (call_with name request r).
Proof. intros log. eexists [_]. cbn. done. Qed.

Lemma emits_external_with name request (r : nat → result A) :
  emits [name] (external_with name request r).
Proof. intros log. apply emits_call_with. Qed.

Lemma emits_bind n1 n2 (m : M A) (f : A → M B) :
  emits n1 m → (∀ a, emits n2 (f a)) → emits (n1 ++ n2) (m ≫= f).
Proof.
  intros Hm Hf log. destruct (Hm log) as (k1 & Hlog1 & Hpre1 & Hok1).
  unfold mbind, M_bind. destruct (m log) as [log1 [a|e]]; cbn in *.
  - subst log1. destruct (Hf a (log ++ k1)%list) as (k2 & Hlog2 & Hpre2 & Hok2).
    exists (k1 ++ k2)%list. rewrite Hlog2, <- app_assoc, fmap_app, (Hok1 a eq_refl).
    split_and!; [done|by apply prefix_app|].
    intros b Hb. by rewrite (Hok2 b Hb).
  - exists k1. split_and!; [done|by apply prefix_app_r|done].
Qed.

End emits.

Lemma emits_for_each {A} nb (body : A → M unit) (l : list A) :
  (∀ x, emits nb (body x)) → emits (concat (replicate (length l) nb)) (for_each body l).
Proof.
  intros Hbody. induction l as [|x l IH]; cbn [for_each length replicate concat].
  - apply emits_ret.
  - intros log. destruct (Hbody x log) as (k1 & Hlog1 & Hpre1 & Hok1).
    unfold mbind, M_bind. destruct (body x log) as [log1 [[]|e]]; cbn in *.
    + subst log1. destruct (IH (log ++ k1)%list) as (k2 & Hlog2 & Hpre2 & Hok2).
      exists (k1 ++ k2)%list.
      rewrite Hlog2, <- app_assoc, fmap_app, (Hok1 () eq_refl).
      split_and!; [done|by apply prefix_app|].
      intros b Hb. by rewrite (Hok2 b Hb).
    + exists k1. split_and!; [done|by apply prefix_app_r|done].
Qed.

Ltac emit_cells :=
  repeat first
    [ apply emits_ret
    | apply emits_call_with
    | apply emits_external_with
    | apply emits_for_each; intros
    | apply emits_bind; [|intros]
    | match goal with x : (_ * _)%type |- _ => destruct x end ].

Lemma emits_notebook w : emits notebook_calls (notebook w).
Proof.
  assert (∃ names, emits names (notebook w) ∧ names = notebook_calls) as (? & H & <-);
    [|exact H].
  eexists. split.
  - unfold notebook, cell_3, cell_4, cell_7, cell_10, resampled, cell_11, cell_12,
      plot_test, cell_15, cell_17, cell_21, deploy_model, request_predictions,
      plot_predictions_cell, plot_test, delete_endpoint_cell, tuning_cells, cell_33,
      call, external.
    cbv zeta. emit_cells.
  - reflexivity.
Qed.

Lemma notebook_calls_prefix w :
  (call_name <$> (run (notebook w)).1) `prefix_of` notebook_calls
  ∧ ((run (notebook w)).2 = Ok () → call_name <$> (run (notebook w)).1 = notebook_calls).
Proof.
  destruct (emits_notebook w []) as (k & Hlog & Hpre & Hok).
  unfold run. rewrite Hlog. cbn. split; [done|apply Hok].
Qed.

Lemma returned_ok name l :
  Forall ok_entry l → returned name l = count_name name (call_name <$> l).
Proof.
  unfold returned, count_name.
  induction 1 as [|en l Hen _ IH]; [done|].
  rewrite fmap_cons, !filter_cons. unfold ok_entry in Hen.
  destruct (decide (call_name en = name)) as [Heq|Hne].
  - rewrite decide_True by done. cbn. by rewrite IH.
  - rewrite decide_False by tauto. done.
Qed.

Lemma returned_snoc_raised name l en e :
  raised en = Some e → returned name (l ++ [en]) = returned name l.
Proof.
  intros He. unfold returned. rewrite filter_app, length_app.
  rewrite filter_cons, decide_False; [cbn; lia|]. intros [_ H]. congruence.
Qed.

(** The state of the endpoints when call number [i] is the one that
    raises. *)
Lemma endpoints_at_failure (i : nat) nm :
  notebook_calls !! i = Some nm →
  let dep := count_name "SKLearnModel.deploy" (take i notebook_calls) in
  let del := count_name "Predictor.delete_endpoint" (take i notebook_calls) in
  (del ≤ dep ≤ 2)%nat
  ∧ ((del < dep)%nat ↔
     nm ∈ endpoint_calls ∨ (nm ∈ frame_calls ∧ (0 < dep)%nat)).
Proof.
  do 97 (destruct i as [|i];
         [intros [= <-]; cbv zeta; apply (bool_decide_unpack _); by vm_compute|]).
  intros H. by vm_compute in H.
Qed.



Lemma shape0_resampled_0 mask df :
  shape0 (fillna_ffill (reset_index_rename (resample_1D_mean (loc_PM2_5 mask df)))) = 0%nat
  ↔ ∀ t x, (t, x) ∈ df → mask x = false.
Proof.
  unfold shape0. rewrite ds_fillna_reset_index, length_fmap, resample_index_eq.
  destruct (day_bounds (loc_PM2_5 mask df)) as [[lo hi]|] eqn:E.
  - destruct (day_bounds_Some _ _ _ E) as ((p & Hp & <-) & (q & Hq & <-) & Hall).
    pose proof (Hall _ Hq). rewrite length_seqZ. split; [lia|].
    intros Hnone. apply elem_of_loc in Hp as (x & Hin & Hm & _).
    specialize (Hnone _ _ Hin). congruence.
  - apply day_bounds_None in E. split; [|done]. intros _ t x Hin.
    destruct (mask x) eqn:Hm; [|done].
    assert ((t, PM2_5 x) ∈ loc_PM2_5 mask df) as Hin'
      by (apply elem_of_loc; by exists x).
    rewrite E in Hin'. by apply elem_of_nil in Hin'.
Qed.

(** X10: after a successful local fit, the test frame is empty exactly when
    no record is from 2016 or later, and exactly then the local forecast
    raises [ValueError("Dataframe has no rows.")]. *)
Theorem forecast_without_test_rows stan df m :
  fit_local stan df = Ok m →
  (shape0 (test df) = 0%nat ↔ ∀ t x, (t, x) ∈ df → year x < 2016)
  ∧ (forecast_local m df = Raise (ValueError "Dataframe has no rows.")
     ↔ ∀ t x, (t, x) ∈ df → year x < 2016).
Proof.
  intros Hfit.
  assert (shape0 (test df) = 0%nat ↔ ∀ t x, (t, x) ∈ df → year x < 2016) as Hempty.
  { unfold test, test_resampled. rewrite shape0_resampled_0. unfold is_test.
    split; intros H t x Hin; specialize (H t x Hin).
    - by apply Z.leb_gt in H.
    - by apply Z.leb_gt. }
  split; [exact Hempty|]. rewrite <- Hempty.
  unfold fit_local in Hfit. unfold forecast_local.
  destruct (fit_history_dates _ _ _ _ Hfit) as (d0 & rest & Hh & _).
  destruct (fit_params _ _ _ _ Hfit) as [p Hp].
  destruct (Prophet.make_future_dataframe m (shape0 (test df))) as [future|e] eqn:Hfut.
  - apply make_future_dataframe_inv in Hfut as (d1 & rest1 & _ & ->).
    change (Ok ?l ≫= ?f) with (f l). cbv beta.
    destruct (shape0 (test df)) as [|n] eqn:Hn.
    + split; [done|]. intros _. unfold Prophet.predict. rewrite Hp.
      by rewrite seqZ_nil by lia.
    + split; [|done]. rewrite (predict_ok m p); [done..|].
      intros E%(f_equal length). rewrite length_seqZ in E. cbn in E. lia.
  - unfold Prophet.make_future_dataframe in Hfut. rewrite Hh in Hfut. done.
Qed.

Lemma forecast_without_test_rows_witness :
  fit_local stan_constant df_past = Ok model_past
  ∧ shape0 (test df_past) = 0%nat
  ∧ forecast_local model_past df_past = Raise (ValueError "Dataframe has no rows.").
Proof.
  assert (fit_local stan_constant df_past = Ok model_past) as Hfit by reflexivity.
  assert (∀ t x, (t, x) ∈ df_past → year x < 2016) as Hpast.
  { intros t x Hin. unfold df_past in Hin. rewrite !elem_of_cons, elem_of_nil in Hin.
    destruct Hin as [[= -> ->]|[[= -> ->]|[]]]; cbn; lia. }
  destruct (forecast_without_test_rows _ _ _ Hfit) as [H0 Hraise].
  split; [exact Hfit|]. split; [by apply H0|by apply Hraise].
Defined.

Lemma string_app_cons c (a b : string) : String c a +:+ b = String c (a +:+ b).
Proof. reflexivity. Qed.

Lemma string_app_nil_r (s : string) : s +:+ "" = s.
Proof. induction s as [|c s IH]; [done|]. by rewrite string_app_cons, IH. Qed.

Lemma string_length_app (a b : string) :
  String.length (a +:+ b) = (String.length a + String.length b)%nat.
Proof.
  induction a as [|c a IH]; [done|]. rewrite string_app_cons. cbn. by rewrite IH.
Qed.

Lemma string_app_inj_l (a b s : string) : a +:+ s = b +:+ s → a = b.
Proof.
  revert b. induction a as [|c a IH]; intros [|c' b] H.
  - done.
  - apply (f_equal String.length) in H. rewrite !string_length_app in H. cbn in H. lia.
  - apply (f_equal String.length) in H. rewrite !string_length_app in H. cbn in H. lia.
  - rewrite !string_app_cons in H. injection H as -> H. f_equal. by apply IH.
Qed.

(** X13: the object key of an upload is ["air-quality-prophet/<name>.csv"],
    and different names give different keys. *)
Theorem upload_key_distinct :
  (∀ name, upload_key name = "air-quality-prophet/" +:+ name +:+ ".csv")
  ∧ (∀ a b, upload_key a = upload_key b → a = b).
Proof.
  assert (∀ name, upload_key name = "air-quality-prophet/" +:+ name +:+ ".csv") as H.
  { intros name. unfold upload_key, key_prefix. cbn [format].
    rewrite !string_app_cons. do 20 f_equal. apply string_app_nil_r. }
  split; [exact H|]. intros a b. rewrite !H, !string_app_cons. intros [= E].
  change (a +:+ ".csv" = b +:+ ".csv") in E. by apply string_app_inj_l in E.
Qed.

Lemma upload_key_distinct_witness : upload_key "train" ≠ upload_key "test".
Proof. intros E. discriminate (proj2 upload_key_distinct "train" "test" E). Defined.

Lemma shape0_dates_resampled s :
  shape0 (fillna_ffill (reset_index_rename (resample_1D_mean s)))
  = length (dates (fillna_ffill (reset_index_rename (resample_1D_mean s)))).
Proof.
  unfold shape0. by rewrite ds_fillna_reset_index, dates_fillna_reset_index, length_fmap.
Qed.

(** X14: the train and test frames together never have more rows than the
    full date range has days, and they have as many exactly when one side
    is empty or the dataset has a record on both 31 December 2015 and
    1 January 2016. *)
Theorem split_row_count rows df :
  set_datetime_index rows = Ok df →
  (shape0 (train df) + shape0 (test df) ≤ length (full_range df))%nat
  ∧ ((shape0 (train df) + shape0 (test df))%nat = length (full_range df)
     ↔ no_gap_at_split df).
Proof.
  intros Hidx.
  assert (shape0 (train df) = length (dates (train df))) as ->
    by apply shape0_dates_resampled.
  assert (shape0 (test df) = length (dates (test df))) as ->
    by apply shape0_dates_resampled.
  rewrite <- length_app.
  assert (NoDup (dates (train df) ++ dates (test df))%list) as Hnd.
  { apply NoDup_app. split_and!.
    - rewrite dates_train. apply resample_index_sorted.
    - intros d Htr%(train_dates_before _ _ Hidx) Hte%(test_dates_from _ _ Hidx). lia.
    - rewrite dates_test. apply resample_index_sorted. }
  assert ((dates (train df) ++ dates (test df))%list ⊆+ full_range df) as Hsub.
  { apply NoDup_submseteq; [done|]. intros d Hd%elem_of_app.
    by apply split_within_full_range. }
  split; [by apply submseteq_length|].
  rewrite <- (split_covers_iff _ _ Hidx). split.
  - intros Hlen d Hd.
    apply submseteq_length_Permutation in Hsub; [|lia].
    rewrite <- Hsub in Hd. by apply elem_of_app in Hd.
  - intros Hcov. apply Nat.le_antisymm; [by apply submseteq_length|].
    apply submseteq_length, NoDup_submseteq.
    + unfold full_range. apply resample_index_sorted.
    + intros d Hd%Hcov. by apply elem_of_app.
Qed.

Lemma split_row_count_witness :
  (shape0 (train df_gap) + shape0 (test df_gap) ≤ length (full_range df_gap))%nat
  ∧ no_gap_at_split df_ok.
Proof.
  split.
  - apply (split_row_count rows_gap df_gap eq_refl).
  - apply (split_row_count rows_ok df_ok eq_refl). reflexivity.
Defined.

Lemma in_Timestamp_bounds_spec t : in_Timestamp_bounds t = true ↔ fits_Timestamp t.
Proof.
  unfold in_Timestamp_bounds, fits_Timestamp, to_ns.
  assert (hours (mk_datetime 1677 9 21 1) = 14697865) as -> by reflexivity.
  assert (hours (mk_datetime 2262 4 11 23) = 19821959) as -> by reflexivity.
  assert (_ymd2ord 1970 1 1 = 719163) as -> by reflexivity.
  assert (2 ^ 63 = 9223372036854775808) as -> by reflexivity.
  assert (10 ^ 9 = 1000000000) as -> by reflexivity.
  unfold hours. generalize (toordinal t) (dt_hour t). intros o h.
  rewrite andb_true_iff, !Z.ltb_lt. lia.
Qed.

Lemma is_DatetimeIndex_spec df :
  is_DatetimeIndex df = true ↔ df ≠ [] ∧ ∀ t x, (t, x) ∈ df → fits_Timestamp t.
Proof.
  assert (forallb (fun p : datetime * Row => in_Timestamp_bounds p.1) df = true
          ↔ ∀ t x, (t, x) ∈ df → fits_Timestamp t) as Hall.
  { rewrite forallb_forall. split.
    - intros H t x Hin. apply in_Timestamp_bounds_spec.
      apply (H (t, x)). by apply list_elem_of_In.
    - intros H [t x] Hin. apply in_Timestamp_bounds_spec.
      eapply H. by apply list_elem_of_In. }
  destruct df as [|p df]; [cbn; split; [done|by intros [? _]]|].
  change (is_DatetimeIndex (p :: df))
    with (forallb (fun p : datetime * Row => in_Timestamp_bounds p.1) (p :: df)).
  rewrite Hall. split; [by split|by intros [_ ?]].
Qed.


